(** * theapplewiki_api: firmware key resolution with a time-bounded cache

    A shallow embedding of [theapplewiki_api.py] and the properties of its
    cache layer, query escaping, HTTP client boundary and bulk front end.

    Conventions of the embedding.
    - A Python [str] is a [string]; the string functions used by the program
      ([replace], [in], [split], [startswith], slicing) are generic in the
      alphabet, so nothing depends on the size of a character.
    - A Python value that comes out of [json.load] is a [pyval]; [None] is
      [PNone].  An argument that the command line provides ([None] or a
      [str]) is an [option string].
    - Effects are threaded through a [world]: the files, the clock, the
      lines printed, and the answers of the network.  A computation is a
      function from a world to an outcome (a value or a raised exception)
      and the world it leaves.
    - What the Python standard library computes and the program treats as
      a black box (the JSON codec, [str()] of a composite value) is the
      interface [PyLib]. *)

From Stdlib Require Import String Ascii List Bool Arith ZArith QArith Lia.
From Stdlib Require Import Permutation Lqa.
From Stdlib Require DecimalString.
From Corelib Require SpecFloat.
Import ListNotations.

Local Open Scope list_scope.
Local Open Scope string_scope.

(** ** Python strings *)

Module PyStr.

(** [s.startswith(p)] *)
Fixpoint startswith (p s : string) : bool :=
  match p, s with
  | EmptyString, _ => true
  | String _ _, EmptyString => false
  | String a p', String b s' => Ascii.eqb a b && startswith p' s'
  end.

(** [p in s] on strings: [p] occurs in [s] as a contiguous run. *)
Fixpoint contains (p s : string) : bool :=
  startswith p s ||
  match s with
  | EmptyString => false
  | String _ s' => contains p s'
  end.

(** [s[n:]] *)
Fixpoint drop (n : nat) (s : string) : string :=
  match n, s with
  | O, _ => s
  | S _, EmptyString => EmptyString
  | S n', String _ s' => drop n' s'
  end.

(** [new.join(s)]-like interleaving that [s.replace("", new)] performs. *)
Fixpoint interleave (new s : string) : string :=
  match s with
  | EmptyString => new
  | String c s' => new ++ String c (interleave new s')
  end.

(** The scan of [str.replace] for a non-empty [old]: occurrences are taken
    from the left and do not overlap.  [skip] counts the characters of the
    occurrence just replaced that are still to be passed over. *)
Fixpoint replace_from (old new : string) (skip : nat) (s : string) : string :=
  match s with
  | EmptyString => EmptyString
  | String c s' =>
      match skip with
      | S k => replace_from old new k s'
      | O =>
          if startswith old s
          then new ++ replace_from old new (String.length old - 1) s'
          else String c (replace_from old new 0 s')
      end
  end.

(** [s.replace(old, new)] *)
Definition replace (old new s : string) : string :=
  match old with
  | EmptyString => interleave new s
  | String _ _ => replace_from old new 0 s
  end.

(** [s.split(sep)] for a separator of one character, as at every call site
    of the program.  The result always has at least one field. *)
Fixpoint split_acc (sep : ascii) (cur : string) (s : string) : list string :=
  match s with
  | EmptyString => [cur]
  | String c s' =>
      if Ascii.eqb c sep then cur :: split_acc sep EmptyString s'
      else split_acc sep (cur ++ String c EmptyString) s'
  end.

Definition split (sep : ascii) (s : string) : list string :=
  split_acc sep EmptyString s.

(** [s.split(sep, 1)]: at most one cut, at the first separator. *)
Fixpoint split1_acc (sep : ascii) (cur : string) (s : string) : list string :=
  match s with
  | EmptyString => [cur]
  | String c s' =>
      if Ascii.eqb c sep then [cur; s']
      else split1_acc sep (cur ++ String c EmptyString) s'
  end.

Definition split1 (sep : ascii) (s : string) : list string :=
  split1_acc sep EmptyString s.

(** [bool(s)] *)
Definition nonempty (s : string) : bool :=
  match s with EmptyString => false | String _ _ => true end.

(** [str(n)] for an integer. *)
Definition of_Z (z : Z) : string :=
  DecimalString.NilZero.string_of_int (Z.to_int z).

End PyStr.

(** ** Configuration *)

Definition USER_AGENT : string := "kinc-firmwareKeysFetcher/1.0".
Definition BASE : string := "https://theapplewiki.com/wiki/Special:Ask".
Definition CACHE_DIR : string := ".cache".
Definition CACHE_TTL : Q := inject_Z (7 * 24 * 60 * 60).
Definition POLITE_DELAY : Q := inject_Z 2.

(** ** Helpers *)

Definition smw_path_escape (text : string) : string :=
  PyStr.replace "," "%2C"
    (PyStr.replace ":" "-3A"
      (PyStr.replace " " "-20"
        (PyStr.replace "]" "-5D"
          (PyStr.replace "[" "-5B" text)))).

(** ** Python values *)

(** The values [json.load] produces.  A JSON object is an association list
    in the order of the document, which is the order [dict.items()]
    iterates in. *)
#[warnings="-register-all"]
Inductive pyval : Type :=
| PNone
| PBool (b : bool)
| PInt (z : Z)
| PFloat (f : SpecFloat.spec_float)
| PStr (s : string)
| PList (l : list pyval)
| PDict (kv : list (string * pyval)).

(** [bool(v)] *)
Definition truthy (v : pyval) : bool :=
  match v with
  | PNone => false
  | PBool b => b
  | PInt z => negb (Z.eqb z 0)
  | PFloat (SpecFloat.S754_zero _) => false
  | PFloat _ => true
  | PStr s => PyStr.nonempty s
  | PList [] => false
  | PList (_ :: _) => true
  | PDict [] => false
  | PDict (_ :: _) => true
  end.

(** A command-line argument as a Python value. *)
Definition of_opt (o : option string) : pyval :=
  match o with
  | None => PNone
  | Some s => PStr s
  end.

(** [bool(a)] for a command-line argument. *)
Definition given (o : option string) : bool := truthy (of_opt o).

(** What the program takes from the Python standard library as it is:
    [json_loads] is [json.load] (the message of the decoding error, or the
    value), [json_dumps] is [json.dump] with [separators=(",", ":")], and
    [py_repr] is [str()] of a float, a list or a dict. *)
Class PyLib : Type := {
  json_loads : string -> string + pyval;
  json_dumps : pyval -> string;
  py_repr : pyval -> string
}.

(** [f"{v}"] *)
Definition py_str `{PyLib} (v : pyval) : string :=
  match v with
  | PNone => "None"
  | PBool true => "True"
  | PBool false => "False"
  | PInt z => PyStr.of_Z z
  | PStr s => s
  | PFloat _ | PList _ | PDict _ => py_repr v
  end.

(** ** The world *)

(** An entry of the file system: a regular file with its content, or a
    directory.  Both have a modification time, in seconds. *)
Inductive node : Type :=
| File (mtime : Q) (content : string)
| Dir (mtime : Q).

Definition node_mtime (n : node) : Q :=
  match n with
  | File t _ => t
  | Dir t => t
  end.

(** What one GET request yields: a transport failure (connection error,
    timeout, status outside 2xx) with its message, or a body. *)
Inductive http_outcome : Type :=
| NetFail (msg : string)
| Body (body : string).

(** [files] maps a path, as the program spells it, to its entry; the order
    of the list is the order in which a directory is enumerated.  [now] is
    the clock, in seconds.  [stdout] holds the lines printed, oldest first.
    [net] answers a request by URL.  [writable] tells whether the operating
    system lets the process open this path for writing. *)
Record world : Type := mkWorld {
  files : list (string * node);
  now : Q;
  stdout : list string;
  net : string -> http_outcome;
  writable : string -> bool
}.

Inductive exn : Type :=
| NetworkError (msg : string)
| JSONDecodeError (msg : string)
| FileError (path : string)
| AttributeError
| TypeError
| KeyError
| IndexError
| SystemExit.

(** [str(e)] for the exceptions whose message the program prints. *)
Definition exn_str (e : exn) : string :=
  match e with
  | NetworkError m => m
  | JSONDecodeError m => m
  | FileError p => p
  | AttributeError => "AttributeError"
  | TypeError => "TypeError"
  | KeyError => "KeyError"
  | IndexError => "IndexError"
  | SystemExit => "2"
  end.

(** [isinstance(e, Exception)]: [SystemExit] derives from [BaseException]
    only. *)
Definition is_Exception (e : exn) : bool :=
  match e with
  | SystemExit => false
  | _ => true
  end.

Inductive outcome (A : Type) : Type :=
| Ok (a : A)
| Raise (e : exn).
Arguments Ok {A} a.
Arguments Raise {A} e.

(** A computation: state passing with exceptions.  A raised exception
    keeps the world as it was when it was raised. *)
Definition M (A : Type) : Type := world -> outcome A * world.

Definition ret {A} (a : A) : M A := fun w => (Ok a, w).

Definition bind {A B} (c : M A) (k : A -> M B) : M B :=
  fun w =>
    match c w with
    | (Ok a, w') => k a w'
    | (Raise e, w') => (Raise e, w')
    end.

Definition raise {A} (e : exn) : M A := fun w => (Raise e, w).

Definition lift {A} (o : outcome A) : M A := fun w => (o, w).

(** [try: body / except Exception as e: handler(e)] *)
Definition try_except {A} (body : M A) (handler : exn -> M A) : M A :=
  fun w =>
    match body w with
    | (Ok a, w') => (Ok a, w')
    | (Raise e, w') => if is_Exception e then handler e w' else (Raise e, w')
    end.

Declare Scope py_scope.
Delimit Scope py_scope with py.
Notation "x <- c ;; k" := (bind c (fun x => k))
  (at level 61, c at next level, right associativity) : py_scope.
Notation "' pat <- c ;; k" := (bind c (fun x => match x with pat => k end))
  (at level 61, pat pattern, c at next level, right associativity) : py_scope.
Notation "c ;; k" := (bind c (fun _ => k))
  (at level 61, right associativity) : py_scope.
Local Open Scope py_scope.

(** [print(line)] *)
Definition print (line : string) : M unit :=
  fun w => (Ok tt, mkWorld (files w) (now w) (stdout w ++ [line])%list
                           (net w) (writable w)).

(** [if flag: print(line)] *)
Definition print_if (flag : bool) (line : string) : M unit :=
  if flag then print line else ret tt.

(** [time.sleep(d)] *)
Definition sleep (d : Q) : M unit :=
  fun w => (Ok tt, mkWorld (files w) (now w + d) (stdout w)
                           (net w) (writable w)).

(** ** Paths and files *)

(** [os.path.join(a, b)] with the POSIX separator. *)
Definition path_join (a b : string) : string :=
  if PyStr.startswith "/" b then b
  else if negb (PyStr.nonempty a) then b
  else if PyStr.startswith "/" (PyStr.drop (String.length a - 1) a) then a ++ b
  else a ++ "/" ++ b.

(** The text after the last ["/"], with [cur] the text since the last one
    seen. *)
Fixpoint basename_acc (cur s : string) : string :=
  match s with
  | EmptyString => cur
  | String c s' =>
      if Ascii.eqb c "/" then basename_acc EmptyString s'
      else basename_acc (cur ++ String c EmptyString) s'
  end.

(** [os.path.basename(p)] *)
Definition basename (p : string) : string := basename_acc EmptyString p.

Fixpoint lookup (p : string) (l : list (string * node)) : option node :=
  match l with
  | [] => None
  | (q, n) :: l' => if String.eqb p q then Some n else lookup p l'
  end.

(** Writing an entry: in place when the path has one, at the end of the
    enumeration otherwise. *)
Fixpoint store (p : string) (n : node) (l : list (string * node))
  : list (string * node) :=
  match l with
  | [] => [(p, n)]
  | (q, m) :: l' =>
      if String.eqb p q then (q, n) :: l' else (q, m) :: store p n l'
  end.

(** The name under which the entry at path [p] shows in directory [dir],
    if [p] is directly inside it. *)
Definition child_name (dir p : string) : option string :=
  let pre := dir ++ "/" in
  if PyStr.startswith pre p then
    let name := PyStr.drop (String.length pre) p in
    if PyStr.nonempty name && negb (PyStr.contains "/" name)
    then Some name else None
  else None.

Fixpoint children (dir : string) (l : list (string * node)) : list string :=
  match l with
  | [] => []
  | (p, _) :: l' =>
      match child_name dir p with
      | Some name => name :: children dir l'
      | None => children dir l'
      end
  end.

(** [os.listdir(dir)], for a directory that exists (the module creates
    [CACHE_DIR] when it is loaded). *)
Definition listdir (dir : string) : M (list string) :=
  fun w => (Ok (children dir (files w)), w).

(** [os.path.exists(path)] *)
Definition path_exists (w : world) (path : string) : bool :=
  match lookup path (files w) with
  | Some _ => true
  | None => false
  end.

(** [os.path.getmtime(path)], for a path that exists. *)
Definition getmtime (w : world) (path : string) : Q :=
  match lookup path (files w) with
  | Some n => node_mtime n
  | None => 0
  end.

Definition Qltb (x y : Q) : bool := negb (Qle_bool y x).

(** [with open(path, "r") as f: return json.load(f)] *)
Definition json_load_file `{PyLib} (path : string) : M pyval :=
  fun w =>
    match lookup path (files w) with
    | Some (File _ content) =>
        match json_loads content with
        | inr v => (Ok v, w)
        | inl msg => (Raise (JSONDecodeError msg), w)
        end
    | Some (Dir _) | None => (Raise (FileError path), w)
    end.

(** [with open(path, "w") as f: json.dump(data, f, separators=(",", ":"))]:
    the file is created or truncated, and carries the time of the write. *)
Definition json_dump_file `{PyLib} (data : pyval) (path : string) : M unit :=
  fun w =>
    match lookup path (files w) with
    | Some (Dir _) => (Raise (FileError path), w)
    | _ =>
        if writable w path then
          (Ok tt, mkWorld (store path (File (now w) (json_dumps data)) (files w))
                          (now w) (stdout w) (net w) (writable w))
        else (Raise (FileError path), w)
    end.

Definition cache_path `{PyLib} (device : string) (build version : pyval)
  : string :=
  if truthy build && truthy version then
    path_join CACHE_DIR
      (device ++ "_" ++ py_str build ++ "_" ++ py_str version ++ ".json")
  else if truthy build then
    path_join CACHE_DIR (device ++ "_" ++ py_str build ++ ".json")
  else if truthy version then
    path_join CACHE_DIR (device ++ "_" ++ py_str version ++ ".json")
  else
    path_join CACHE_DIR (device ++ "_unknown.json").

Definition cache_valid (w : world) (path : string) : bool :=
  path_exists w path && Qltb (now w - getmtime w path) CACHE_TTL.

(** [b and b in fname] for a command-line argument [b]. *)
Definition given_in (o : option string) (fname : string) : bool :=
  match o with
  | Some s => PyStr.nonempty s && PyStr.contains s fname
  | None => false
  end.

(** The test of the fallback scan of [load_cache] on a file name. *)
Definition fallback_match (device : string) (build version : option string)
    (fname : string) : bool :=
  PyStr.contains device fname
  && (given_in build fname || given_in version fname).

(** The [for fname in os.listdir(CACHE_DIR)] loop of [load_cache] and the
    [return None, None] after it. *)
Fixpoint load_cache_scan `{PyLib} (device : string)
    (build version : option string) (debug : bool) (names : list string)
  : M (pyval * option string) :=
  match names with
  | [] => ret (PNone, None)
  | fname :: rest =>
      if fallback_match device build version fname then
        let path := path_join CACHE_DIR fname in
        fun w =>
          if cache_valid w path then
            (print_if debug ("[DEBUG] Using fallback cache: " ++ path) ;;
             v <- json_load_file path ;;
             ret (v, Some path)) w
          else load_cache_scan device build version debug rest w
      else load_cache_scan device build version debug rest
  end.

Definition load_cache `{PyLib} (device : string)
    (build version : option string) (debug : bool)
  : M (pyval * option string) :=
  let exact_path := cache_path device (of_opt build) (of_opt version) in
  fun w =>
    if cache_valid w exact_path then
      (print_if debug ("[DEBUG] Using exact cache: " ++ exact_path) ;;
       v <- json_load_file exact_path ;;
       ret (v, Some exact_path)) w
    else
      (names <- listdir CACHE_DIR ;;
       load_cache_scan device build version debug names) w.

Definition save_cache `{PyLib} (data : pyval) (device : string)
    (build version : pyval) : M unit :=
  let path := cache_path device build version in
  json_dump_file data path ;;
  print ("[+] Saved cache " ++ path).

(** ** Operations on values that the discovery step uses *)

Fixpoint assoc (key : string) (kv : list (string * pyval)) : option pyval :=
  match kv with
  | [] => None
  | (k, v) :: kv' => if String.eqb key k then Some v else assoc key kv'
  end.

(** [d.get(key, default)]: only a dict has the method. *)
Definition dict_get (d : pyval) (key : string) (default : pyval)
  : outcome pyval :=
  match d with
  | PDict kv =>
      match assoc key kv with
      | Some v => Ok v
      | None => Ok default
      end
  | _ => Raise AttributeError
  end.

(** [d.items()] *)
Definition dict_items (d : pyval) : outcome (list (string * pyval)) :=
  match d with
  | PDict kv => Ok kv
  | _ => Raise AttributeError
  end.

Definition is_str (key : string) (v : pyval) : bool :=
  match v with
  | PStr s => String.eqb key s
  | _ => false
  end.

(** [key in c] for a string [key]: a key of a dict, an element of a list,
    a run of a string; the other values are not iterable. *)
Definition py_in (key : string) (c : pyval) : outcome bool :=
  match c with
  | PDict kv =>
      match assoc key kv with
      | Some _ => Ok true
      | None => Ok false
      end
  | PList l => Ok (existsb (is_str key) l)
  | PStr s => Ok (PyStr.contains key s)
  | _ => Raise TypeError
  end.

(** [c[key]] for a string [key]. *)
Definition py_getitem (c : pyval) (key : string) : outcome pyval :=
  match c with
  | PDict kv =>
      match assoc key kv with
      | Some v => Ok v
      | None => Raise KeyError
      end
  | _ => Raise TypeError
  end.

(** [c[0]] *)
Definition py_first (c : pyval) : outcome pyval :=
  match c with
  | PList (v :: _) => Ok v
  | PList [] => Raise IndexError
  | PStr (String ch _) => Ok (PStr (String ch EmptyString))
  | PStr EmptyString => Raise IndexError
  | PDict _ => Raise KeyError
  | _ => Raise TypeError
  end.

(** [p[key][0] if key in p and p[key] else None] *)
Definition printout (p : pyval) (key : string) : M pyval :=
  present <- lift (py_in key p) ;;
  if present then
    v <- lift (py_getitem p key) ;;
    if truthy v then lift (py_first v) else ret PNone
  else ret PNone.

(** ** Step 1: discovery *)

Definition discovery_query (device : string) (version build : option string)
  : string :=
  "[[:Keys:+]]"
  ++ "[[Has_firmware_device::" ++ device ++ "]]"
  ++ (match version with
      | Some v => if PyStr.nonempty v
                  then "[[Has_firmware_version::" ++ v ++ "]]" else ""
      | None => ""
      end)
  ++ (match build with
      | Some b => if PyStr.nonempty b
                  then "[[Has_firmware_build::" ++ b ++ "]]" else ""
      | None => ""
      end)
  ++ "/-3FHas-20firmware-20build%3Dbuild"
  ++ "/-3FHas-20firmware-20version%3Dversion"
  ++ "/-3FHas-20firmware-20device%3Ddevice"
  ++ "/-3FHas-20firmware-20codename%3Dcodename"
  ++ "/limit%3D1/offset%3D0/format%3Djson/searchlabel%3DKeys/type%3Dbroadtable".

Definition discovery_url (device : string) (version build : option string)
  : string :=
  BASE ++ "/" ++ smw_path_escape (discovery_query device version build).

(** [with urllib.request.urlopen(req, timeout=15) as r: data = json.load(r)] *)
Definition urlopen_json `{PyLib} (url : string) : M pyval :=
  fun w =>
    match net w url with
    | NetFail msg => (Raise (NetworkError msg), w)
    | Body body =>
        match json_loads body with
        | inr v => (Ok v, w)
        | inl msg => (Raise (JSONDecodeError msg), w)
        end
    end.

(** The [for page_title, entry in results.items()] loop of
    [discover_update_line] and the [return None, None, None] after it. *)
Fixpoint discover_scan `{PyLib} (items : list (string * pyval))
    (verbose : bool) : M (option string * pyval * pyval) :=
  match items with
  | [] => ret (None, PNone, PNone)
  | (page_title, entry) :: rest =>
      if PyStr.startswith "Keys:" page_title then
        let tail := PyStr.drop (String.length "Keys:") page_title in
        let update_line := hd "" (PyStr.split1 " " tail) in
        printouts <- lift (dict_get entry "printouts" (PDict [])) ;;
        discovered_build <- printout printouts "build" ;;
        discovered_version <- printout printouts "version" ;;
        let discovered_build :=
          if negb (truthy discovered_build) then
            let parts := PyStr.split " " tail in
            if (1 <? List.length parts)%nat then PStr (nth 1 parts "")
            else discovered_build
          else discovered_build in
        print_if verbose
          ("[DEBUG] Update line: " ++ update_line
           ++ ", build: " ++ py_str discovered_build
           ++ ", version: " ++ py_str discovered_version) ;;
        ret (Some update_line, discovered_build, discovered_version)
      else discover_scan rest verbose
  end.

Definition discover_update_line `{PyLib} (device : string)
    (version build : option string) (verbose : bool)
  : M (option string * pyval * pyval) :=
  let url := discovery_url device version build in
  print_if verbose ("[DEBUG] Discovery URL: " ++ url) ;;
  r <- try_except
         (data <- urlopen_json url ;; ret (Some data))
         (fun e =>
            print ("[-] Discovery request failed: " ++ exn_str e) ;;
            ret None) ;;
  match r with
  | None => ret (None, PNone, PNone)
  | Some data =>
      results <- lift (dict_get data "results" (PDict [])) ;;
      if negb (truthy results) then ret (None, PNone, PNone)
      else
        items <- lift (dict_items results) ;;
        discover_scan items verbose
  end.

(** ** Step 2: fetch keys *)

Definition fetch_keys_url `{PyLib} (device : string) (build : pyval)
    (update : string) : string :=
  let subobject :=
    "Keys:" ++ update ++ " " ++ py_str build ++ " (" ++ device ++ ")" in
  BASE
  ++ "/-5B-5B-2DHas-20subobject::" ++ smw_path_escape subobject ++ "-5D-5D"
  ++ "/-3FHas-20filename%3Dfilename"
  ++ "/-3FHas-20firmware-20device%3Ddevice"
  ++ "/-3FHas-20key%3Dkey"
  ++ "/-3FKey-20DevKBAG%3Ddevkbag"
  ++ "/-3FHas-20key-20IV%3Div"
  ++ "/-3FKey-20KBAG%3Dkbag"
  ++ "/mainlabel%3Dfilename"
  ++ "/limit%3D100/offset%3D0/format%3Djson/searchlabel%3DKeys/type%3Dsimple".

(** [isinstance(v, dict)] *)
Definition is_dict (v : pyval) : bool :=
  match v with
  | PDict _ => true
  | _ => false
  end.

Definition fetch_keys `{PyLib} (device : string) (build : pyval)
    (update : string) (verbose : bool) : M pyval :=
  let url := fetch_keys_url device build update in
  print_if verbose ("[DEBUG] Fetch keys URL: " ++ url) ;;
  r <- try_except
         (data <- urlopen_json url ;; ret (Some data))
         (fun e =>
            print ("[-] Fetch keys request failed: " ++ exn_str e) ;;
            ret None) ;;
  match r with
  | None => ret PNone
  | Some data => ret (if is_dict data && truthy data then data else PNone)
  end.

(** ** Fetch workflow *)

(** [bool(update_line)] *)
Definition has_update_line (u : option string) : bool := given u.

(** The build that a cache hit yields: the one supplied, or, when none was
    supplied, the second [_]-separated field of the name of the cache file. *)
Definition build_of_cache_hit (build : option string)
    (cache_file : option string) : pyval :=
  if negb (given build) && given cache_file then
    let file := match cache_file with Some p => p | None => "" end in
    let parts := PyStr.split "_" (PyStr.replace ".json" "" (basename file)) in
    if (2 <=? List.length parts)%nat then PStr (nth 1 parts "")
    else of_opt build
  else of_opt build.

(** The tail of [fetch_firmware_keys], common to a cache hit and a fresh
    fetch: the output file. *)
Definition write_output `{PyLib} (keys : pyval) (device : string)
    (final_build : pyval) (debug : bool) : M (pyval * option string) :=
  let output_file := device ++ "_" ++ py_str final_build ++ ".json" in
  json_dump_file keys output_file ;;
  print_if debug ("[DEBUG] Keys written to " ++ output_file) ;;
  ret (keys, Some output_file).

Definition fetch_firmware_keys `{PyLib} (device : string)
    (version build : option string) (debug : bool)
  : M (pyval * option string) :=
  '(cached, cache_file) <- load_cache device build version debug ;;
  if truthy cached then
    let final_build := build_of_cache_hit build cache_file in
    print_if (debug && negb (given build) && given cache_file)
      ("[DEBUG] Extracted build from cache filename: " ++ py_str final_build) ;;
    write_output cached device final_build debug
  else
    '(update_line, discovered_build, discovered_version) <-
       discover_update_line device version build debug ;;
    match update_line with
    | Some update =>
        if PyStr.nonempty update then
          let final_build :=
            if given build then of_opt build else discovered_build in
          let version :=
            if given version then of_opt version else discovered_version in
          print_if debug
            ("[DEBUG] Waiting " ++ "2" ++ "s before fetching keys...") ;;
          sleep POLITE_DELAY ;;
          keys <- fetch_keys device final_build update debug ;;
          if negb (truthy keys) then
            print ("[-] Failed to fetch keys for " ++ device ++ " "
                   ++ py_str final_build) ;;
            ret (PNone, None)
          else
            save_cache keys device final_build version ;;
            write_output keys device final_build debug
        else
          print ("[-] Failed to discover update line for " ++ device) ;;
          ret (PNone, None)
    | None =>
        print ("[-] Failed to discover update line for " ++ device) ;;
        ret (PNone, None)
    end.

(** ** CLI / bulk mode *)

(** What [argparse] hands to [main]. *)
Record args : Type := mkArgs {
  arg_product : string;
  arg_ios : option string;
  arg_build : option string;
  arg_bulk : option (list string);
  arg_debug : bool
}.

(** [parts[i] if len(parts) > i and parts[i] else None] *)
Definition field (parts : list string) (i : nat) : option string :=
  match nth_error parts i with
  | Some s => if PyStr.nonempty s then Some s else None
  | None => None
  end.

(** What one bulk entry is read as: product, version, build. *)
Definition parse_entry (entry : string)
  : string * option string * option string :=
  let parts := PyStr.split "," entry in
  (hd "" parts, field parts 1, field parts 2).

(** The [for entry in args.bulk] loop of [main]. *)
Fixpoint bulk_loop `{PyLib} (entries : list string) (debug : bool) : M unit :=
  match entries with
  | [] => ret tt
  | entry :: rest =>
      let '(product, version, build) := parse_entry entry in
      if negb (given version) && negb (given build) then
        print ("[-] Entry '" ++ entry
               ++ "' must include at least version or build") ;;
        bulk_loop rest debug
      else
        fetch_firmware_keys product version build debug ;;
        bulk_loop rest debug
  end.

Definition main `{PyLib} (a : args) : M unit :=
  match arg_bulk a with
  | Some (e :: es) => bulk_loop (e :: es) (arg_debug a)
  | _ =>
      if negb (given (arg_ios a)) && negb (given (arg_build a)) then
        raise SystemExit
      else
        fetch_firmware_keys (arg_product a) (arg_ios a) (arg_build a)
          (arg_debug a) ;;
        ret tt
  end.

(** ** A reference library, to run the program on concrete inputs

    A [PyLib] for the float-free values whose strings hold neither a quote
    nor a backslash: the compact writer and a reader of the same grammar.
    The theorems below hold for every [PyLib]; this one instantiates them. *)

Module Sample.

Definition dquote : ascii := "034"%char.

Definition quoted (s : string) : string :=
  String dquote (s ++ String dquote EmptyString).

Fixpoint commas (l : list string) : string :=
  match l with
  | [] => ""
  | [x] => x
  | x :: l' => x ++ "," ++ commas l'
  end.

Fixpoint dumps (v : pyval) : string :=
  match v with
  | PNone => "null"
  | PBool true => "true"
  | PBool false => "false"
  | PInt z => PyStr.of_Z z
  | PFloat _ => "0.0"
  | PStr s => quoted s
  | PList l => "[" ++ commas (map dumps l) ++ "]"
  | PDict kv =>
      "{" ++ commas (map (fun p => quoted (fst p) ++ ":" ++ dumps (snd p)) kv)
      ++ "}"
  end.

Definition is_digit (c : ascii) : bool :=
  let n := nat_of_ascii c in ((48 <=? n) && (n <=? 57))%nat.

Fixpoint skip_ws (s : string) : string :=
  match s with
  | String c s' =>
      if Ascii.eqb c " " || Ascii.eqb c "010" || Ascii.eqb c "009"
         || Ascii.eqb c "013"
      then skip_ws s' else s
  | EmptyString => s
  end.

(** The digits at the head of [s], as a number, and what follows them. *)
Fixpoint digits (acc : Z) (seen : bool) (s : string) : option (Z * string) :=
  match s with
  | String c s' =>
      if is_digit c
      then digits (10 * acc + Z.of_nat (nat_of_ascii c - 48)) true s'
      else if seen then Some (acc, s) else None
  | EmptyString => if seen then Some (acc, s) else None
  end.

(** The text up to the closing quote, and what follows it. *)
Fixpoint until_quote (cur s : string) : option (string * string) :=
  match s with
  | String c s' =>
      if Ascii.eqb c dquote then Some (cur, s')
      else if Ascii.eqb c "\" then None
      else until_quote (cur ++ String c EmptyString) s'
  | EmptyString => None
  end.

Fixpoint parse_value (fuel : nat) (s : string) : option (pyval * string) :=
  match fuel with
  | O => None
  | S fuel' =>
      match skip_ws s with
      | String c rest =>
          if Ascii.eqb c "[" then
            match skip_ws rest with
            | String c' rest' =>
                if Ascii.eqb c' "]" then Some (PList [], rest')
                else parse_items fuel' rest
            | EmptyString => None
            end
          else if Ascii.eqb c "{" then
            match skip_ws rest with
            | String c' rest' =>
                if Ascii.eqb c' "}" then Some (PDict [], rest')
                else parse_members fuel' rest
            | EmptyString => None
            end
          else if Ascii.eqb c dquote then
            match until_quote "" rest with
            | Some (str, rest') => Some (PStr str, rest')
            | None => None
            end
          else if Ascii.eqb c "-" then
            match digits 0 false rest with
            | Some (z, rest') => Some (PInt (- z), rest')
            | None => None
            end
          else if is_digit c then
            match digits 0 false (String c rest) with
            | Some (z, rest') => Some (PInt z, rest')
            | None => None
            end
          else if PyStr.startswith "null" (String c rest)
          then Some (PNone, PyStr.drop 4 (String c rest))
          else if PyStr.startswith "true" (String c rest)
          then Some (PBool true, PyStr.drop 4 (String c rest))
          else if PyStr.startswith "false" (String c rest)
          then Some (PBool false, PyStr.drop 5 (String c rest))
          else None
      | EmptyString => None
      end
  end
with parse_items (fuel : nat) (s : string) : option (pyval * string) :=
  match fuel with
  | O => None
  | S fuel' =>
      match parse_value fuel' s with
      | Some (v, rest) =>
          match skip_ws rest with
          | String c rest' =>
              if Ascii.eqb c "]" then Some (PList [v], rest')
              else if Ascii.eqb c "," then
                match parse_items fuel' rest' with
                | Some (PList l, rest'') => Some (PList (v :: l), rest'')
                | _ => None
                end
              else None
          | EmptyString => None
          end
      | None => None
      end
  end
with parse_members (fuel : nat) (s : string) : option (pyval * string) :=
  match fuel with
  | O => None
  | S fuel' =>
      match skip_ws s with
      | String c rest =>
          if Ascii.eqb c dquote then
            match until_quote "" rest with
            | Some (key, rest1) =>
                match skip_ws rest1 with
                | String c1 rest2 =>
                    if Ascii.eqb c1 ":" then
                      match parse_value fuel' rest2 with
                      | Some (v, rest3) =>
                          match skip_ws rest3 with
                          | String c3 rest4 =>
                              if Ascii.eqb c3 "}"
                              then Some (PDict [(key, v)], rest4)
                              else if Ascii.eqb c3 "," then
                                match parse_members fuel' rest4 with
                                | Some (PDict kv, rest5) =>
                                    Some (PDict ((key, v) :: kv), rest5)
                                | _ => None
                                end
                              else None
                          | EmptyString => None
                          end
                      | None => None
                      end
                    else None
                | EmptyString => None
                end
            | None => None
            end
          else None
      | EmptyString => None
      end
  end.

Definition loads (s : string) : string + pyval :=
  match parse_value (2 * String.length s + 2) s with
  | Some (v, rest) =>
      match skip_ws rest with
      | EmptyString => inr v
      | String _ _ => inl "Extra data"
      end
  | None => inl "Expecting value"
  end.

#[export] Instance lib : PyLib := {
  json_loads := loads;
  json_dumps := dumps;
  py_repr := dumps
}.

(** A network that is down. *)
Definition offline (url : string) : http_outcome :=
  NetFail "<urlopen error timed out>".

(** A network that answers every request with the same body. *)
Definition answering (body : string) (url : string) : http_outcome :=
  Body body.

Definition always (path : string) : bool := true.

(** A bundle with one record. *)
Definition bundle : pyval :=
  PDict [("iBoot", PDict [("key", PStr "00ff"); ("iv", PStr "a1b2")])].

Definition bundle_text : string := Eval vm_compute in dumps bundle.

(** An empty cache directory, at noon of the first day. *)
Definition empty_world (answers : string -> http_outcome) : world :=
  mkWorld [(".cache", Dir 0)] (inject_Z 43200) [] answers always.

(** The cache directory holds one file, written at time [t]. *)
Definition one_file_world (name : string) (t : Q) (time : Q) : world :=
  mkWorld [(".cache", Dir 0); (".cache/" ++ name, File t bundle_text)]
          time [] offline always.

End Sample.

(** ** The statements of the specification, in its own words *)

(** The token that stands for a reserved character of a query. *)
Definition escape_char (c : ascii) : string :=
  if Ascii.eqb c "[" then "-5B"
  else if Ascii.eqb c "]" then "-5D"
  else if Ascii.eqb c " " then "-20"
  else if Ascii.eqb c ":" then "-3A"
  else if Ascii.eqb c "," then "%2C"
  else String c EmptyString.

(** Every character of [s] replaced by [f] of it. *)
Fixpoint map_chars (f : ascii -> string) (s : string) : string :=
  match s with
  | EmptyString => EmptyString
  | String c s' => f c ++ map_chars f s'
  end.

(** The five substitutions of [smw_path_escape], in the order of the code. *)
Definition substitutions : list (string * string) :=
  [("[", "-5B"); ("]", "-5D"); (" ", "-20"); (":", "-3A"); (",", "%2C")].

(** The substitutions of [l] applied one after the other, the first of the
    list first. *)
Definition apply_substitutions (l : list (string * string)) (s : string)
  : string :=
  fold_left (fun acc p => PyStr.replace (fst p) (snd p) acc) l s.

(** [p] occurs in [s]. *)
Definition substring_of (p s : string) : Prop :=
  exists a b, s = a ++ p ++ b.

(** The name [fname] contains the device identifier and the supplied build
    or the supplied version. *)
Definition names_firmware (device : string) (build version : option string)
    (fname : string) : Prop :=
  substring_of device fname
  /\ exists s, (build = Some s \/ version = Some s)
               /\ s <> "" /\ substring_of s fname.

(** The age of an entry at the time of world [w] is below the retention
    window. *)
Definition fresh (w : world) (n : node) : Prop :=
  (now w - node_mtime n < CACHE_TTL)%Q.

(** The same world, later (or earlier) on the clock. *)
Definition at_time (t : Q) (w : world) : world :=
  mkWorld (files w) t (stdout w) (net w) (writable w).

(** The computation changes nothing but the lines printed. *)
Definition only_prints {A} (c : M A) : Prop :=
  forall w,
    files (snd (c w)) = files w /\ now (snd (c w)) = now w
    /\ net (snd (c w)) = net w /\ writable (snd (c w)) = writable w.

(** The computation leaves the files, the network and the permissions as
    they are (it may print and let time pass). *)
Definition keeps_files {A} (c : M A) : Prop :=
  forall w,
    files (snd (c w)) = files w /\ net (snd (c w)) = net w
    /\ writable (snd (c w)) = writable w.

(** The outcome of the computation is a function of the network alone. *)
Definition reads_net_only {A} (c : M A) : Prop :=
  forall w w', net w = net w' -> fst (c w) = fst (c w').

(** What reading a cache hit gives: the decoded content of a regular file. *)
Definition read_outcome `{PyLib} (w : world) (path : string)
  : outcome (pyval * option string) :=
  match lookup path (files w) with
  | Some (File _ content) =>
      match json_loads content with
      | inr v => Ok (v, Some path)
      | inl msg => Raise (JSONDecodeError msg)
      end
  | Some (Dir _) | None => Raise (FileError path)
  end.

(** Some character of [cs] occurs in [s]. *)
Definition has_any (cs : list ascii) (s : string) : bool :=
  existsb (fun c => PyStr.contains (String c EmptyString) s) cs.

(** The characters that [smw_path_escape] rewrites. *)
Definition reserved : list ascii := ["["; "]"; " "; ":"; ","]%char.

(** The world with one more line printed. *)
Definition printed (line : string) (w : world) : world :=
  mkWorld (files w) (now w) (stdout w ++ [line])%list (net w) (writable w).

(** ** Strings: basic facts *)

Section StringFacts.

Lemma app_empty_r (s : string) : s ++ "" = s.
Proof. induction s as [|c s IH]; simpl; [reflexivity | now rewrite IH]. Qed.

Lemma app_assoc' (a b c : string) : (a ++ b) ++ c = a ++ b ++ c.
Proof. induction a as [|x a IH]; simpl; [reflexivity | now rewrite IH]. Qed.

Lemma length_app (a b : string) :
  String.length (a ++ b) = (String.length a + String.length b)%nat.
Proof. induction a as [|x a IH]; simpl; [reflexivity | now rewrite IH]. Qed.

Lemma app_inv_head' (a b c : string) : a ++ b = a ++ c -> b = c.
Proof.
  induction a as [|x a IH]; simpl; intros E; [exact E|].
  injection E as E. now apply IH.
Qed.

Lemma nonempty_true (s : string) : PyStr.nonempty s = true <-> s <> "".
Proof. destruct s; simpl; split; congruence. Qed.

Lemma startswith_app (p s : string) : PyStr.startswith p (p ++ s) = true.
Proof.
  induction p as [|c p IH]; simpl; [reflexivity|].
  now rewrite Ascii.eqb_refl, IH.
Qed.

Lemma startswith_spec (p s : string) :
  PyStr.startswith p s = true <-> exists b, s = p ++ b.
Proof.
  split.
  - revert s. induction p as [|c p IH]; intros s E.
    + now exists s.
    + destruct s as [|d s]; simpl in E; [discriminate|].
      apply andb_true_iff in E as [E1 E2].
      apply Ascii.eqb_eq in E1 as ->.
      destruct (IH _ E2) as [b ->]. now exists b.
  - intros [b ->]. apply startswith_app.
Qed.

Lemma contains_startswith (p s : string) :
  PyStr.startswith p s = true -> PyStr.contains p s = true.
Proof. destruct s; simpl; intros ->; reflexivity. Qed.

Lemma contains_spec (p s : string) :
  PyStr.contains p s = true <-> substring_of p s.
Proof.
  unfold substring_of. split.
  - induction s as [|c s IH]; simpl; intros E.
    + apply orb_true_iff in E as [E|E]; [|discriminate].
      apply startswith_spec in E as [b E]. now exists "", b.
    + apply orb_true_iff in E as [E|E].
      * apply startswith_spec in E as [b E]. now exists "", b.
      * destruct (IH E) as (a & b & ->). now exists (String c a), b.
  - intros (a & b & ->). induction a as [|c a IH]; simpl.
    + apply contains_startswith, startswith_app.
    + rewrite IH. apply orb_true_r.
Qed.

Lemma drop_app (a b : string) : PyStr.drop (String.length a) (a ++ b) = b.
Proof. induction a as [|c a IH]; simpl; [now destruct b | exact IH]. Qed.

Lemma map_chars_app (f : ascii -> string) (a b : string) :
  map_chars f (a ++ b) = map_chars f a ++ map_chars f b.
Proof.
  induction a as [|c a IH]; simpl; [reflexivity|].
  now rewrite IH, app_assoc'.
Qed.

Lemma map_chars_fuse (f g : ascii -> string) (s : string) :
  map_chars f (map_chars g s) = map_chars (fun c => map_chars f (g c)) s.
Proof.
  induction s as [|c s IH]; simpl; [reflexivity|].
  now rewrite map_chars_app, IH.
Qed.

Lemma map_chars_ext (f g : ascii -> string) (s : string) :
  (forall c, f c = g c) -> map_chars f s = map_chars g s.
Proof.
  intros E. induction s as [|c s IH]; simpl; [reflexivity|].
  now rewrite E, IH.
Qed.

(** Replacing a one-character [old] works character by character. *)
Lemma replace_char (c : ascii) (new s : string) :
  PyStr.replace (String c "") new s
  = map_chars (fun x => if Ascii.eqb x c then new else String x "") s.
Proof.
  unfold PyStr.replace.
  induction s as [|x s IH]; simpl; [reflexivity|].
  rewrite andb_true_r, Ascii.eqb_sym.
  destruct (Ascii.eqb x c); simpl; now rewrite IH.
Qed.

End StringFacts.

(** ** Query escaping *)

Section Escaping.

Lemma smw_path_escape_as_fold (s : string) :
  smw_path_escape s = apply_substitutions substitutions s.
Proof. reflexivity. Qed.

(** The chain of replacements rewrites each character on its own: no token
    holds a reserved character, so a later step never touches what an
    earlier step produced. *)
Lemma smw_path_escape_chars (s : string) :
  smw_path_escape s = map_chars escape_char s.
Proof.
  unfold smw_path_escape.
  rewrite !replace_char, !map_chars_fuse.
  apply map_chars_ext.
  intros c. destruct c as [[] [] [] [] [] [] [] []]; reflexivity.
Qed.

(** Two of the five substitutions commute. *)
Lemma substitutions_commute (p q : string * string) (s : string) :
  In p substitutions -> In q substitutions ->
  PyStr.replace (fst q) (snd q) (PyStr.replace (fst p) (snd p) s)
  = PyStr.replace (fst p) (snd p) (PyStr.replace (fst q) (snd q) s).
Proof.
  intros Hp Hq.
  assert (C : forall a b m n,
             (forall c, map_chars (fun x => if Ascii.eqb x b then n
                                            else String x "")
                          (if Ascii.eqb c a then m else String c "")
                      = map_chars (fun x => if Ascii.eqb x a then m
                                            else String x "")
                          (if Ascii.eqb c b then n else String c "")) ->
             PyStr.replace (String b "") n (PyStr.replace (String a "") m s)
             = PyStr.replace (String a "") m (PyStr.replace (String b "") n s)).
  { intros a b m n E. rewrite !replace_char, !map_chars_fuse.
    now apply map_chars_ext. }
  simpl in Hp, Hq.
  repeat (destruct Hp as [<-|Hp]); try contradiction;
    repeat (destruct Hq as [<-|Hq]); try contradiction;
    try reflexivity; apply C; intros c;
    destruct c as [[] [] [] [] [] [] [] []]; reflexivity.
Qed.

Lemma apply_substitutions_perm (l l' : list (string * string)) :
  Permutation l l' ->
  Forall (fun p => In p substitutions) l ->
  forall s, apply_substitutions l s = apply_substitutions l' s.
Proof.
  unfold apply_substitutions.
  induction 1 as [|x l l' P IH|x y l|l l' l'' P1 IH1 P2 IH2]; intros F s.
  - reflexivity.
  - simpl. apply IH. now inversion F.
  - simpl. f_equal. inversion F as [|? ? Fy F']. inversion F' as [|? ? Fx F''].
    now apply substitutions_commute.
  - rewrite IH1 by assumption. apply IH2.
    eapply Permutation_Forall; eassumption.
Qed.

End Escaping.

(** C6. [smw_path_escape] rewrites each character on its own: [[] becomes
    [-5B], []] becomes [-5D], a space becomes [-20], [:] becomes [-3A],
    [,] becomes [%2C], and every other character stays; so it does on
    ["Keys: [Test], Value"]; and the five substitutions applied in any
    order give the same result. *)
Theorem smw_path_escape_spec :
  (forall s, smw_path_escape s = map_chars escape_char s)
  /\ smw_path_escape "Keys: [Test], Value" = "Keys-3A-20-5BTest-5D%2C-20Value"
  /\ (forall order s,
        Permutation substitutions order ->
        apply_substitutions order s = smw_path_escape s).
Proof.
  split; [exact smw_path_escape_chars|].
  split; [reflexivity|].
  intros order s P.
  rewrite smw_path_escape_as_fold. symmetry.
  apply apply_substitutions_perm; [exact P|].
  apply Forall_forall. auto.
Qed.

Lemma smw_path_escape_spec_witness :
  Permutation substitutions (rev substitutions)
  /\ apply_substitutions (rev substitutions) "Keys: [Test], Value"
     = smw_path_escape "Keys: [Test], Value".
Proof.
  assert (P : Permutation substitutions (rev substitutions))
    by apply Permutation_rev.
  split; [exact P|].
  exact (proj2 (proj2 smw_path_escape_spec)
           (rev substitutions) "Keys: [Test], Value" P).
Defined.

(** ** Cache addressing *)

Section CachePath.
Context `{PyLib}.

(** [os.path.join] on the cache directory. *)
Lemma path_join_cache (name : string) :
  path_join CACHE_DIR name
  = if PyStr.startswith "/" name then name else ".cache/" ++ name.
Proof. reflexivity. Qed.

Lemma path_join_cache_inj (x y : string) :
  path_join CACHE_DIR x = path_join CACHE_DIR y -> x = y.
Proof.
  rewrite !path_join_cache.
  destruct (PyStr.startswith "/" x) eqn:Ex, (PyStr.startswith "/" y) eqn:Ey;
    intros E.
  - exact E.
  - subst x. discriminate Ex.
  - subst y. discriminate Ey.
  - now injection E.
Qed.

Lemma cache_path_both (device b v : string) :
  b <> "" -> v <> "" ->
  cache_path device (PStr b) (PStr v)
  = path_join CACHE_DIR (device ++ "_" ++ b ++ "_" ++ v ++ ".json").
Proof.
  intros Hb Hv. unfold cache_path. simpl.
  apply nonempty_true in Hb, Hv. now rewrite Hb, Hv.
Qed.

Lemma cache_path_build_only (device b : string) :
  b <> "" ->
  cache_path device (PStr b) PNone
  = path_join CACHE_DIR (device ++ "_" ++ b ++ ".json").
Proof.
  intros Hb. unfold cache_path. simpl.
  apply nonempty_true in Hb. now rewrite Hb.
Qed.

Lemma cache_path_version_only (device v : string) :
  v <> "" ->
  cache_path device PNone (PStr v)
  = path_join CACHE_DIR (device ++ "_" ++ v ++ ".json").
Proof.
  intros Hv. unfold cache_path. simpl.
  apply nonempty_true in Hv. now rewrite Hv.
Qed.

Lemma cache_path_neither (device : string) :
  cache_path device PNone PNone
  = path_join CACHE_DIR (device ++ "_unknown.json").
Proof. reflexivity. Qed.

(** A falsy build counts as no build, a falsy version as no version. *)
Lemma cache_path_falsy_build (device : string) (build version : pyval) :
  truthy build = false ->
  cache_path device build version = cache_path device PNone version.
Proof. intros E. unfold cache_path. now rewrite E. Qed.

Lemma cache_path_falsy_version (device : string) (build version : pyval) :
  truthy version = false ->
  cache_path device build version = cache_path device build PNone.
Proof.
  intros E. unfold cache_path. change (truthy PNone) with false.
  rewrite E, !andb_false_r. reflexivity.
Qed.

End CachePath.

(** C7. [cache_path] follows the priority list: with build and version
    both known the file is [{device}_{build}_{version}.json], with the
    build only [{device}_{build}.json], with the version only
    [{device}_{version}.json], with neither [{device}_unknown.json], each
    joined to the cache directory; and with both known the path differs
    from the one with the build only and from the one with the version
    only. *)
Theorem cache_path_priority `{PyLib} (device b v : string) :
  b <> "" -> v <> "" ->
  cache_path device (PStr b) (PStr v)
    = path_join CACHE_DIR (device ++ "_" ++ b ++ "_" ++ v ++ ".json")
  /\ cache_path device (PStr b) PNone
    = path_join CACHE_DIR (device ++ "_" ++ b ++ ".json")
  /\ cache_path device PNone (PStr v)
    = path_join CACHE_DIR (device ++ "_" ++ v ++ ".json")
  /\ cache_path device PNone PNone
    = path_join CACHE_DIR (device ++ "_unknown.json")
  /\ cache_path device (PStr b) (PStr v) <> cache_path device (PStr b) PNone
  /\ cache_path device (PStr b) (PStr v) <> cache_path device PNone (PStr v).
Proof.
  intros Hb Hv.
  rewrite cache_path_both, cache_path_build_only, cache_path_version_only,
    cache_path_neither by assumption.
  repeat split.
  - intros E. apply path_join_cache_inj in E.
    do 3 apply app_inv_head' in E. discriminate E.
  - intros E. apply path_join_cache_inj in E.
    do 2 apply app_inv_head' in E.
    apply (f_equal String.length) in E.
    rewrite !length_app in E. simpl in E. lia.
Qed.

Lemma cache_path_priority_witness :
  "19H370" <> "" /\ "15.0.1" <> ""
  /\ cache_path (H := Sample.lib) "iPhone9,3" (PStr "19H370") (PStr "15.0.1")
     = ".cache/iPhone9,3_19H370_15.0.1.json"
  /\ cache_path (H := Sample.lib) "iPhone9,3" (PStr "19H370") (PStr "15.0.1")
     <> cache_path (H := Sample.lib) "iPhone9,3" (PStr "19H370") PNone.
Proof.
  assert (Hb : "19H370" <> "") by discriminate.
  assert (Hv : "15.0.1" <> "") by discriminate.
  pose proof (cache_path_priority (H := Sample.lib) "iPhone9,3" _ _ Hb Hv)
    as (E1 & _ & _ & _ & N1 & _).
  split; [exact Hb|]. split; [exact Hv|]. split; [exact E1 | exact N1].
Defined.

(** ** Effects: what a computation reads and what it leaves alone *)

Section Effects.
Context `{PyLib}.

Lemma only_prints_keeps_files {A} (c : M A) : only_prints c -> keeps_files c.
Proof. intros P w. destruct (P w) as (F & _ & N & W). auto. Qed.

Lemma only_prints_ret {A} (a : A) : only_prints (ret a).
Proof. intros w. simpl. auto. Qed.

Lemma only_prints_lift {A} (o : outcome A) : only_prints (lift o).
Proof. intros w. simpl. auto. Qed.

Lemma only_prints_print (line : string) : only_prints (print line).
Proof. intros w. simpl. auto. Qed.

Lemma only_prints_print_if (flag : bool) (line : string) :
  only_prints (print_if flag line).
Proof.
  destruct flag; [apply only_prints_print | apply only_prints_ret].
Qed.

Lemma only_prints_bind {A B} (c : M A) (k : A -> M B) :
  only_prints c -> (forall a, only_prints (k a)) -> only_prints (bind c k).
Proof.
  intros Pc Pk w. unfold bind.
  destruct (Pc w) as (F & T & N & W).
  destruct (c w) as [[a|e] w1]; simpl in *.
  - destruct (Pk a w1) as (F' & T' & N' & W').
    rewrite F', T', N', W'. auto.
  - auto.
Qed.

Lemma only_prints_try {A} (c : M A) (h : exn -> M A) :
  only_prints c -> (forall e, only_prints (h e)) ->
  only_prints (try_except c h).
Proof.
  intros Pc Ph w. unfold try_except.
  destruct (Pc w) as (F & T & N & W).
  destruct (c w) as [[a|e] w1]; simpl in *; [auto|].
  destruct (is_Exception e); simpl; [|auto].
  destruct (Ph e w1) as (F' & T' & N' & W').
  rewrite F', T', N', W'. auto.
Qed.

Lemma only_prints_urlopen (url : string) : only_prints (urlopen_json url).
Proof.
  intros w. unfold urlopen_json.
  destruct (net w url) as [m|b]; [simpl; auto|].
  destruct (json_loads b); simpl; auto.
Qed.

Lemma only_prints_json_load (path : string) :
  only_prints (json_load_file path).
Proof.
  intros w. unfold json_load_file.
  destruct (lookup path (files w)) as [[t c|t]|]; simpl; auto.
  destruct (json_loads c); simpl; auto.
Qed.

Lemma only_prints_printout (p : pyval) (key : string) :
  only_prints (printout p key).
Proof.
  unfold printout.
  apply only_prints_bind; [apply only_prints_lift|]. intros [|].
  - apply only_prints_bind; [apply only_prints_lift|]. intros v.
    destruct (truthy v); [apply only_prints_lift | apply only_prints_ret].
  - apply only_prints_ret.
Qed.

Lemma keeps_files_bind {A B} (c : M A) (k : A -> M B) :
  keeps_files c -> (forall a, keeps_files (k a)) -> keeps_files (bind c k).
Proof.
  intros Pc Pk w. unfold bind.
  destruct (Pc w) as (F & N & W).
  destruct (c w) as [[a|e] w1]; simpl in *.
  - destruct (Pk a w1) as (F' & N' & W').
    rewrite F', N', W'. auto.
  - auto.
Qed.

Lemma keeps_files_sleep (d : Q) : keeps_files (sleep d).
Proof. intros w. simpl. auto. Qed.

Lemma reads_net_only_ret {A} (a : A) : reads_net_only (ret a).
Proof. intros w w' _. reflexivity. Qed.

Lemma reads_net_only_lift {A} (o : outcome A) : reads_net_only (lift o).
Proof. intros w w' _. reflexivity. Qed.

Lemma reads_net_only_print (line : string) : reads_net_only (print line).
Proof. intros w w' _. reflexivity. Qed.

Lemma reads_net_only_print_if (flag : bool) (line : string) :
  reads_net_only (print_if flag line).
Proof. intros w w' _. destruct flag; reflexivity. Qed.

Lemma reads_net_only_bind {A B} (c : M A) (k : A -> M B) :
  reads_net_only c -> only_prints c ->
  (forall a, reads_net_only (k a)) ->
  reads_net_only (bind c k).
Proof.
  intros Rc Pc Rk w w' E. unfold bind.
  pose proof (Rc w w' E) as Ec.
  destruct (Pc w) as (_ & _ & N & _), (Pc w') as (_ & _ & N' & _).
  destruct (c w) as [[a|e] w1], (c w') as [[a'|e'] w1'];
    simpl in *; try discriminate.
  - injection Ec as ->. apply Rk. congruence.
  - now injection Ec as ->.
Qed.

Lemma reads_net_only_try {A} (c : M A) (h : exn -> M A) :
  reads_net_only c -> only_prints c ->
  (forall e, reads_net_only (h e)) ->
  reads_net_only (try_except c h).
Proof.
  intros Rc Pc Rh w w' E. unfold try_except.
  pose proof (Rc w w' E) as Ec.
  destruct (Pc w) as (_ & _ & N & _), (Pc w') as (_ & _ & N' & _).
  destruct (c w) as [[a|e] w1], (c w') as [[a'|e'] w1'];
    simpl in *; try discriminate.
  - exact Ec.
  - injection Ec as ->. destruct (is_Exception e'); simpl; [|reflexivity].
    apply Rh. congruence.
Qed.

Lemma reads_net_only_urlopen (url : string) :
  reads_net_only (urlopen_json url).
Proof.
  intros w w' E. unfold urlopen_json. rewrite E.
  destruct (net w' url) as [m|b]; [reflexivity|].
  destruct (json_loads b); reflexivity.
Qed.

Lemma reads_net_only_printout (p : pyval) (key : string) :
  reads_net_only (printout p key).
Proof.
  unfold printout.
  apply reads_net_only_bind;
    [apply reads_net_only_lift | apply only_prints_lift|]. intros [|].
  - apply reads_net_only_bind;
      [apply reads_net_only_lift | apply only_prints_lift|]. intros v.
    destruct (truthy v); [apply reads_net_only_lift | apply reads_net_only_ret].
  - apply reads_net_only_ret.
Qed.

End Effects.

Create HintDb effects.
#[local] Hint Resolve only_prints_ret only_prints_lift only_prints_print
  only_prints_print_if only_prints_urlopen only_prints_json_load
  only_prints_printout reads_net_only_ret reads_net_only_lift
  reads_net_only_print reads_net_only_print_if reads_net_only_urlopen
  reads_net_only_printout : effects.

(** ** The cache store *)

Section CacheStore.
Context `{PyLib}.

Lemma Qltb_lt (x y : Q) : Qltb x y = true <-> (x < y)%Q.
Proof.
  unfold Qltb. rewrite negb_true_iff. split.
  - intros E. apply Qnot_le_lt. intros L.
    apply Qle_bool_iff in L. congruence.
  - intros L. destruct (Qle_bool y x) eqn:E; [|reflexivity].
    apply Qle_bool_iff in E. now apply Qlt_not_le in L.
Qed.

Lemma cache_valid_iff (w : world) (path : string) :
  cache_valid w path = true
  <-> exists n, lookup path (files w) = Some n /\ fresh w n.
Proof.
  unfold cache_valid, path_exists, getmtime, fresh.
  destruct (lookup path (files w)) as [n|]; simpl.
  - rewrite Qltb_lt. split.
    + intros L. now exists n.
    + intros (n' & E & L). now injection E as <-.
  - split; [discriminate | intros (n & E & _); discriminate].
Qed.

Lemma lookup_store_same (p : string) (n : node) (l : list (string * node)) :
  lookup p (store p n l) = Some n.
Proof.
  induction l as [|[q m] l IH]; simpl.
  - now rewrite String.eqb_refl.
  - destruct (String.eqb p q) eqn:E; simpl; rewrite E; [reflexivity | exact IH].
Qed.

Lemma lookup_store_other (p q : string) (n : node)
    (l : list (string * node)) :
  p <> q -> lookup q (store p n l) = lookup q l.
Proof.
  intros D. induction l as [|[r m] l IH]; simpl.
  - apply String.eqb_neq in D. rewrite String.eqb_sym in D. now rewrite D.
  - destruct (String.eqb p r) eqn:E; simpl.
    + apply String.eqb_eq in E as <-.
      apply String.eqb_neq in D. rewrite String.eqb_sym in D. now rewrite D.
    + now rewrite IH.
Qed.

(** An entry directly inside a directory shows in its enumeration. *)
Lemma children_lookup (dir name : string) (l : list (string * node)) :
  name <> "" -> PyStr.contains "/" name = false ->
  lookup (dir ++ "/" ++ name) l <> None ->
  In name (children dir l).
Proof.
  intros Hn Hs.
  assert (C : child_name dir (dir ++ "/" ++ name) = Some name).
  { unfold child_name. rewrite <- app_assoc', startswith_app, drop_app, Hs.
    apply nonempty_true in Hn. now rewrite Hn. }
  remember (dir ++ "/" ++ name) as p eqn:Ep. clear Ep.
  induction l as [|[q m] l IH]; simpl; [congruence|].
  destruct (String.eqb p q) eqn:E.
  - apply String.eqb_eq in E as <-. rewrite C. intros _. now left.
  - intros L. specialize (IH L).
    destruct (child_name dir q); [now right | exact IH].
Qed.

Lemma hit_outcome (flag : bool) (line path : string) (w : world) :
  fst ((print_if flag line ;;
        v <- json_load_file path ;;
        ret (v, Some path)) w)
  = read_outcome w path.
Proof.
  unfold read_outcome, bind, json_load_file, ret.
  destruct flag; simpl;
    (destruct (lookup path (files w)) as [[t c|t]|]; [|reflexivity..]);
    destruct (json_loads c); reflexivity.
Qed.

Lemma hit_only_prints (flag : bool) (line path : string) :
  only_prints (print_if flag line ;;
               v <- json_load_file path ;;
               ret (v, Some path)).
Proof.
  apply only_prints_bind; [auto with effects|]. intros _.
  apply only_prints_bind; [auto with effects|]. intros v.
  auto with effects.
Qed.

Lemma load_cache_scan_only_prints (device : string)
    (build version : option string) (debug : bool) (names : list string) :
  only_prints (load_cache_scan device build version debug names).
Proof.
  induction names as [|f names IH]; simpl; [auto with effects|].
  destruct (fallback_match device build version f); [|exact IH].
  intros w. destruct (cache_valid w (path_join CACHE_DIR f)).
  - apply hit_only_prints.
  - apply IH.
Qed.

Lemma load_cache_only_prints (device : string)
    (build version : option string) (debug : bool) :
  only_prints (load_cache device build version debug).
Proof.
  intros w. unfold load_cache.
  destruct (cache_valid w _).
  - apply hit_only_prints.
  - unfold bind, listdir. apply load_cache_scan_only_prints.
Qed.

(** An exact hit: the exact path is valid, and is what is read. *)
Lemma load_cache_exact (device : string) (build version : option string)
    (debug : bool) (w : world) :
  cache_valid w (cache_path device (of_opt build) (of_opt version)) = true ->
  fst (load_cache device build version debug w)
  = read_outcome w (cache_path device (of_opt build) (of_opt version)).
Proof. intros V. unfold load_cache. rewrite V. apply hit_outcome. Qed.

(** The scan stops at the first name that matches and is valid. *)
Lemma load_cache_scan_first (device : string) (build version : option string)
    (debug : bool) (w : world) (before after : list string) (f : string) :
  (forall g, In g before ->
     fallback_match device build version g
     && cache_valid w (path_join CACHE_DIR g) = false) ->
  fallback_match device build version f = true ->
  cache_valid w (path_join CACHE_DIR f) = true ->
  fst (load_cache_scan device build version debug (before ++ f :: after) w)
  = read_outcome w (path_join CACHE_DIR f).
Proof.
  intros Hb Hm Hv. induction before as [|g before IH]; simpl.
  - rewrite Hm, Hv. apply hit_outcome.
  - pose proof (Hb g (or_introl eq_refl)) as Hg.
    destruct (fallback_match device build version g); simpl in Hg.
    + rewrite Hg. apply IH. intros g' I. apply Hb. now right.
    + apply IH. intros g' I. apply Hb. now right.
Qed.

(** Whatever the scan returns with a path was read from a valid file whose
    name matched. *)
Lemma load_cache_scan_sound (device : string) (build version : option string)
    (debug : bool) (names : list string) (w : world) (c : pyval)
    (p : string) :
  fst (load_cache_scan device build version debug names w) = Ok (c, Some p) ->
  exists f,
    In f names /\ p = path_join CACHE_DIR f
    /\ fallback_match device build version f = true
    /\ cache_valid w p = true
    /\ read_outcome w p = Ok (c, Some p).
Proof.
  induction names as [|f names IH]; simpl; [discriminate|].
  destruct (fallback_match device build version f) eqn:Em.
  - destruct (cache_valid w (path_join CACHE_DIR f)) eqn:Ev.
    + rewrite hit_outcome. intros R.
      assert (p = path_join CACHE_DIR f) as ->.
      { unfold read_outcome in R.
        destruct (lookup _ (files w)) as [[t x|t]|]; try discriminate.
        destruct (json_loads x); [discriminate|]. now injection R. }
      exists f. auto.
    + intros R. destruct (IH R) as (g & I & E). exists g. split; [now right|].
      exact E.
  - intros R. destruct (IH R) as (g & I & E). exists g. split; [now right|].
    exact E.
Qed.

(** Whatever [load_cache] returns with a path was read from a valid file. *)
Lemma load_cache_sound (device : string) (build version : option string)
    (debug : bool) (w : world) (c : pyval) (p : string) :
  fst (load_cache device build version debug w) = Ok (c, Some p) ->
  cache_valid w p = true /\ read_outcome w p = Ok (c, Some p).
Proof.
  unfold load_cache.
  destruct (cache_valid w (cache_path _ _ _)) eqn:Ev.
  - rewrite hit_outcome. intros R.
    assert (p = cache_path device (of_opt build) (of_opt version)) as ->.
    { unfold read_outcome in R.
      destruct (lookup _ (files w)) as [[t x|t]|]; try discriminate.
      destruct (json_loads x); [discriminate|]. now injection R. }
    auto.
  - unfold bind, listdir. intros R.
    apply load_cache_scan_sound in R as (f & _ & _ & _ & V & R). auto.
Qed.

(** Without a path, [load_cache] returns no content. *)
Lemma load_cache_scan_none (device : string) (build version : option string)
    (debug : bool) (names : list string) (w : world) (c : pyval) :
  fst (load_cache_scan device build version debug names w) = Ok (c, None) ->
  c = PNone.
Proof.
  induction names as [|f names IH]; simpl.
  - intros R. now injection R.
  - destruct (fallback_match device build version f); [|exact IH].
    destruct (cache_valid w (path_join CACHE_DIR f)); [|exact IH].
    rewrite hit_outcome. unfold read_outcome.
    destruct (lookup _ (files w)) as [[t x|t]|]; try discriminate.
    destruct (json_loads x); discriminate.
Qed.

Lemma read_outcome_file (w : world) (p : string) (c : pyval) :
  read_outcome w p = Ok (c, Some p) ->
  exists t content,
    lookup p (files w) = Some (File t content) /\ json_loads content = inr c.
Proof.
  unfold read_outcome.
  destruct (lookup p (files w)) as [[t x|t]|]; try discriminate.
  destruct (json_loads x) eqn:E; [discriminate|].
  intros R. injection R as <-. now exists t, x.
Qed.

(** What [save_cache] leaves when it returns. *)
Lemma save_cache_files (data : pyval) (device : string)
    (build version : pyval) (w w1 : world) :
  save_cache data device build version w = (Ok tt, w1) ->
  files w1
  = store (cache_path device build version)
      (File (now w) (json_dumps data)) (files w).
Proof.
  unfold save_cache, bind, json_dump_file, print.
  destruct (lookup _ (files w)) as [[t x|t]|];
    try discriminate;
    (destruct (writable w _); [|discriminate]);
    simpl; intros E; now injection E as <-.
Qed.

(** A file just written, read back at the path it was written to. *)
Lemma load_cache_written (data : pyval) (device : string)
    (build version : option string) (debug : bool) (t : Q) (w2 : world)
    (fs : list (string * node)) :
  json_loads (json_dumps data) = inr data ->
  files w2
  = store (cache_path device (of_opt build) (of_opt version))
      (File t (json_dumps data)) fs ->
  (now w2 - t < CACHE_TTL)%Q ->
  fst (load_cache device build version debug w2)
  = Ok (data, Some (cache_path device (of_opt build) (of_opt version))).
Proof.
  intros J F L.
  assert (E : lookup (cache_path device (of_opt build) (of_opt version))
                (files w2) = Some (File t (json_dumps data)))
    by (rewrite F; apply lookup_store_same).
  rewrite load_cache_exact.
  - unfold read_outcome. now rewrite E, J.
  - apply cache_valid_iff. eexists. split; [exact E | exact L].
Qed.

Lemma given_in_spec (o : option string) (fname : string) :
  given_in o fname = true
  <-> exists s, o = Some s /\ s <> "" /\ substring_of s fname.
Proof.
  unfold given_in. destruct o as [s|].
  - rewrite andb_true_iff, nonempty_true, contains_spec. split.
    + intros [N C]. now exists s.
    + intros (s' & E & N & C). now injection E as <-.
  - split; [discriminate | intros (s & E & _); discriminate].
Qed.

Lemma fallback_match_spec (device : string) (build version : option string)
    (fname : string) :
  fallback_match device build version fname = true
  <-> names_firmware device build version fname.
Proof.
  unfold fallback_match, names_firmware.
  rewrite andb_true_iff, orb_true_iff, contains_spec, !given_in_spec.
  split.
  - intros [D [(s & E & N & C)|(s & E & N & C)]]; split; trivial;
      exists s; auto.
  - intros [D (s & [E|E] & N & C)]; split; trivial;
      [left | right]; exists s; auto.
Qed.

(** The scan depends on the build and the version through the test on the
    names only. *)
Lemma load_cache_scan_ext (device : string)
    (build version build' version' : option string) (debug : bool)
    (names : list string) (w : world) :
  (forall f, fallback_match device build version f
             = fallback_match device build' version' f) ->
  load_cache_scan device build version debug names w
  = load_cache_scan device build' version' debug names w.
Proof.
  intros E. induction names as [|f names IH]; [reflexivity|].
  cbn [load_cache_scan]. rewrite E.
  destruct (fallback_match device build' version' f); [|exact IH].
  destruct (cache_valid w (path_join CACHE_DIR f)); [reflexivity | exact IH].
Qed.

End CacheStore.

(** C3. [cache_valid] holds of a path exactly when the path exists and the
    clock minus its modification time is below seven days; so whatever
    [load_cache] returns with a path, by the exact match or by the scan,
    is the decoded content of a file of that path younger than seven days,
    and without a path it returns no content. *)
Theorem stale_files_never_returned `{PyLib} :
  CACHE_TTL = inject_Z (7 * 86400)
  /\ (forall w path,
        cache_valid w path = true
        <-> exists n, lookup path (files w) = Some n
                      /\ (now w - node_mtime n < CACHE_TTL)%Q)
  /\ (forall device build version debug w c p,
        fst (load_cache device build version debug w) = Ok (c, Some p) ->
        exists t content,
          lookup p (files w) = Some (File t content)
          /\ json_loads content = inr c
          /\ (now w - t < CACHE_TTL)%Q)
  /\ (forall device build version debug w c,
        fst (load_cache device build version debug w) = Ok (c, None) ->
        c = PNone).
Proof.
  split; [reflexivity|].
  split; [exact cache_valid_iff|].
  split.
  - intros device build version debug w c p R.
    apply load_cache_sound in R as [V R].
    apply read_outcome_file in R as (t & content & E & J).
    apply cache_valid_iff in V as (n & E' & L).
    rewrite E in E'. injection E' as <-.
    exists t, content. auto.
  - intros device build version debug w c. unfold load_cache.
    destruct (cache_valid w (cache_path _ _ _)).
    + rewrite hit_outcome. unfold read_outcome.
      destruct (lookup _ (files w)) as [[t x|t]|]; try discriminate.
      destruct (json_loads x); discriminate.
    + unfold bind, listdir. apply load_cache_scan_none.
Qed.

Lemma stale_files_never_returned_witness :
  let w := Sample.one_file_world "iPhone9,3_19H370.json" 0 (inject_Z 3600) in
  fst (load_cache (H := Sample.lib) "iPhone9,3" (Some "19H370") None false w)
  = Ok (Sample.bundle, Some ".cache/iPhone9,3_19H370.json")
  /\ exists t content,
       lookup ".cache/iPhone9,3_19H370.json" (files w) = Some (File t content)
       /\ json_loads (PyLib := Sample.lib) content = inr Sample.bundle
       /\ (now w - t < CACHE_TTL)%Q.
Proof.
  intros w.
  assert (R : fst (load_cache (H := Sample.lib)
                     "iPhone9,3" (Some "19H370") None false w)
              = Ok (Sample.bundle, Some ".cache/iPhone9,3_19H370.json"))
    by (vm_compute; reflexivity).
  split; [exact R|].
  exact (proj1 (proj2 (proj2 (stale_files_never_returned (H := Sample.lib))))
           "iPhone9,3" (Some "19H370") None false w Sample.bundle
           ".cache/iPhone9,3_19H370.json" R).
Defined.

(** C4. After [save_cache] has written a value that the JSON codec carries
    through unchanged, [load_cache] with the same triple, on the files as
    they were left and less than seven days after the write, returns that
    value and the exact path of the triple. *)
Theorem save_then_load `{PyLib} (data : pyval) (device : string)
    (build version : option string) (debug : bool) (w w1 w2 : world) :
  json_loads (json_dumps data) = inr data ->
  save_cache data device (of_opt build) (of_opt version) w = (Ok tt, w1) ->
  files w2 = files w1 ->
  (now w2 - now w < CACHE_TTL)%Q ->
  fst (load_cache device build version debug w2)
  = Ok (data, Some (cache_path device (of_opt build) (of_opt version))).
Proof.
  intros J S F L.
  apply save_cache_files in S.
  eapply load_cache_written; [exact J | | exact L].
  rewrite F. exact S.
Qed.

Lemma save_then_load_witness :
  let w := Sample.empty_world Sample.offline in
  let w1 := snd (save_cache (H := Sample.lib) Sample.bundle "iPhone9,3"
                   (PStr "19H370") (PStr "15.0.1") w) in
  let w2 := at_time (inject_Z 500000) w1 in
  json_loads (PyLib := Sample.lib)
                (json_dumps (PyLib := Sample.lib) Sample.bundle)
  = inr Sample.bundle
  /\ save_cache (H := Sample.lib) Sample.bundle "iPhone9,3"
       (PStr "19H370") (PStr "15.0.1") w = (Ok tt, w1)
  /\ files w2 = files w1
  /\ (now w2 - now w < CACHE_TTL)%Q
  /\ fst (load_cache (H := Sample.lib)
            "iPhone9,3" (Some "19H370") (Some "15.0.1") true w2)
     = Ok (Sample.bundle, Some ".cache/iPhone9,3_19H370_15.0.1.json").
Proof.
  intros w w1 w2.
  assert (J : json_loads (PyLib := Sample.lib)
                (json_dumps (PyLib := Sample.lib) Sample.bundle)
              = inr Sample.bundle) by (vm_compute; reflexivity).
  assert (S : save_cache (H := Sample.lib) Sample.bundle "iPhone9,3"
                (PStr "19H370") (PStr "15.0.1") w = (Ok tt, w1))
    by (vm_compute; reflexivity).
  assert (F : files w2 = files w1) by reflexivity.
  assert (L : (now w2 - now w < CACHE_TTL)%Q) by (vm_compute; reflexivity).
  repeat (split; [assumption|]).
  exact (save_then_load (H := Sample.lib) Sample.bundle "iPhone9,3"
           (Some "19H370") (Some "15.0.1") true w w1 w2 J S F L).
Defined.

(** C5. When the exact path is not valid, [load_cache] goes through the
    cache directory and returns the decoded content and the path of the
    first valid entry whose name contains the device identifier and the
    supplied build or the supplied version.  So with the fresh file
    [deviceX_buildA_1.0.json] alone in the cache directory, the lookup of
    [deviceX] with no build and version [1.0] returns the content and the
    path of that file. *)
Theorem load_cache_fallback `{PyLib} :
  (forall device build version debug w before f after t content j,
     cache_valid w (cache_path device (of_opt build) (of_opt version))
     = false ->
     children CACHE_DIR (files w) = (before ++ f :: after)%list ->
     (forall g, In g before ->
        ~ (names_firmware device build version g
           /\ cache_valid w (path_join CACHE_DIR g) = true)) ->
     names_firmware device build version f ->
     lookup (path_join CACHE_DIR f) (files w) = Some (File t content) ->
     (now w - t < CACHE_TTL)%Q ->
     json_loads content = inr j ->
     fst (load_cache device build version debug w)
     = Ok (j, Some (path_join CACHE_DIR f)))
  /\ (forall debug w t content j,
        children CACHE_DIR (files w) = ["deviceX_buildA_1.0.json"] ->
        lookup ".cache/deviceX_buildA_1.0.json" (files w)
        = Some (File t content) ->
        (now w - t < CACHE_TTL)%Q ->
        json_loads content = inr j ->
        fst (load_cache "deviceX" None (Some "1.0") debug w)
        = Ok (j, Some ".cache/deviceX_buildA_1.0.json")).
Proof.
  assert (G : forall device build version debug w before f after t content j,
     cache_valid w (cache_path device (of_opt build) (of_opt version))
     = false ->
     children CACHE_DIR (files w) = (before ++ f :: after)%list ->
     (forall g, In g before ->
        ~ (names_firmware device build version g
           /\ cache_valid w (path_join CACHE_DIR g) = true)) ->
     names_firmware device build version f ->
     lookup (path_join CACHE_DIR f) (files w) = Some (File t content) ->
     (now w - t < CACHE_TTL)%Q ->
     json_loads content = inr j ->
     fst (load_cache device build version debug w)
     = Ok (j, Some (path_join CACHE_DIR f))).
  { intros device build version debug w before f after t content j
      Hx Hl Hb Hf Hp Ht Hj.
    unfold load_cache. rewrite Hx. unfold bind, listdir. rewrite Hl.
    rewrite load_cache_scan_first.
    - unfold read_outcome. now rewrite Hp, Hj.
    - intros g I. specialize (Hb g I).
      destruct (fallback_match device build version g) eqn:Em; [|reflexivity].
      destruct (cache_valid w (path_join CACHE_DIR g)); [|reflexivity].
      exfalso. apply Hb. split; [|reflexivity].
      now apply fallback_match_spec.
    - now apply fallback_match_spec.
    - apply cache_valid_iff. eexists. split; [exact Hp | exact Ht]. }
  split; [exact G|].
  intros debug w t content j Hl Hp Ht Hj.
  apply (G "deviceX" None (Some "1.0") debug w [] "deviceX_buildA_1.0.json"
           [] t content j); trivial.
  - destruct (cache_valid w _) eqn:V; [|reflexivity].
    apply cache_valid_iff in V as (n & E & _).
    assert (I : In "deviceX_1.0.json" (children CACHE_DIR (files w))).
    { apply children_lookup; [discriminate | reflexivity|].
      change (CACHE_DIR ++ "/" ++ "deviceX_1.0.json")
        with (cache_path "deviceX" (of_opt None) (of_opt (Some "1.0"))).
      congruence. }
    rewrite Hl in I. destruct I as [I|[]]. discriminate I.
  - intros g [].
  - apply fallback_match_spec. reflexivity.
Qed.

Lemma load_cache_fallback_witness :
  let w := Sample.one_file_world "deviceX_buildA_1.0.json" 0
             (inject_Z 86400) in
  children CACHE_DIR (files w) = ["deviceX_buildA_1.0.json"]
  /\ lookup ".cache/deviceX_buildA_1.0.json" (files w)
     = Some (File 0 Sample.bundle_text)
  /\ (now w - 0 < CACHE_TTL)%Q
  /\ json_loads (PyLib := Sample.lib) Sample.bundle_text = inr Sample.bundle
  /\ fst (load_cache (H := Sample.lib) "deviceX" None (Some "1.0") false w)
     = Ok (Sample.bundle, Some ".cache/deviceX_buildA_1.0.json").
Proof.
  intros w.
  assert (Hl : children CACHE_DIR (files w) = ["deviceX_buildA_1.0.json"])
    by reflexivity.
  assert (Hp : lookup ".cache/deviceX_buildA_1.0.json" (files w)
               = Some (File 0 Sample.bundle_text)) by reflexivity.
  assert (Ht : (now w - 0 < CACHE_TTL)%Q) by (vm_compute; reflexivity).
  assert (Hj : json_loads (PyLib := Sample.lib) Sample.bundle_text
               = inr Sample.bundle) by (vm_compute; reflexivity).
  repeat (split; [assumption|]).
  exact (proj2 (load_cache_fallback (H := Sample.lib))
           false w 0 Sample.bundle_text Sample.bundle Hl Hp Ht Hj).
Defined.

(** C9. The file name does not tell a build from a version: for a
    non-empty [s], the path of build [s] alone is the path of version [s]
    alone, so what [save_cache] wrote for the version [s] is what
    [load_cache] reads, by exact match, for the build [s]; and the build
    [a_b] alone has the path of build [a] with version [b], as ["A_B"]
    against ["A"] and ["B"]. *)
Theorem cache_path_not_injective `{PyLib} :
  (forall device s,
     s <> "" ->
     cache_path device (PStr s) PNone = cache_path device PNone (PStr s))
  /\ (forall data device s debug w w1 w2,
        s <> "" ->
        json_loads (json_dumps data) = inr data ->
        save_cache data device PNone (PStr s) w = (Ok tt, w1) ->
        files w2 = files w1 ->
        (now w2 - now w < CACHE_TTL)%Q ->
        fst (load_cache device (Some s) None debug w2)
        = Ok (data, Some (cache_path device PNone (PStr s))))
  /\ (forall device a b,
        a <> "" -> b <> "" ->
        cache_path device (PStr (a ++ "_" ++ b)) PNone
        = cache_path device (PStr a) (PStr b))
  /\ (forall device,
        cache_path device (PStr "A_B") PNone
        = cache_path device (PStr "A") (PStr "B")).
Proof.
  assert (E : forall device s, s <> "" ->
            cache_path device (PStr s) PNone
            = cache_path device PNone (PStr s)).
  { intros device s N.
    now rewrite cache_path_build_only, cache_path_version_only. }
  split; [exact E|]. split; [|split].
  - intros data device s debug w w1 w2 N J S F L.
    apply save_cache_files in S.
    rewrite <- (E device s N) in S |- *.
    eapply (load_cache_written data device (Some s) None); [exact J | | exact L].
    rewrite F. exact S.
  - intros device a b Na Nb.
    rewrite cache_path_build_only, cache_path_both by (destruct a; easy).
    now rewrite !app_assoc'.
  - reflexivity.
Qed.

Lemma cache_path_not_injective_witness :
  "19H370" <> ""
  /\ cache_path (H := Sample.lib) "iPhone9,3" (PStr "19H370") PNone
     = cache_path (H := Sample.lib) "iPhone9,3" PNone (PStr "19H370").
Proof.
  assert (N : "19H370" <> "") by discriminate.
  split; [exact N|].
  exact (proj1 (cache_path_not_injective (H := Sample.lib))
           "iPhone9,3" "19H370" N).
Defined.

(** C10. An empty string counts as no identifier in the cache layer: the
    path with an empty build is the path with no build, likewise for the
    version, and with both empty the file is [{device}_unknown.json]; the
    scan never matches a name on an empty build or version, so
    [load_cache] with an empty build or version is [load_cache] without
    it. *)
Theorem empty_identifier_is_absent `{PyLib} :
  (forall device version,
     cache_path device (PStr "") version = cache_path device PNone version)
  /\ (forall device build,
        cache_path device build (PStr "") = cache_path device build PNone)
  /\ (forall device,
        cache_path device (PStr "") (PStr "")
        = path_join CACHE_DIR (device ++ "_unknown.json"))
  /\ (forall fname, given_in (Some "") fname = false)
  /\ (forall device version fname,
        fallback_match device (Some "") version fname
        = fallback_match device None version fname)
  /\ (forall device build fname,
        fallback_match device build (Some "") fname
        = fallback_match device build None fname)
  /\ (forall device version debug w,
        load_cache device (Some "") version debug w
        = load_cache device None version debug w)
  /\ (forall device build debug w,
        load_cache device build (Some "") debug w
        = load_cache device build None debug w).
Proof.
  repeat split; try reflexivity.
  - intros device build. now apply cache_path_falsy_version.
  - intros device version debug w. unfold load_cache.
    change (cache_path device (of_opt (Some "")) (of_opt version))
      with (cache_path device (of_opt None) (of_opt version)).
    destruct (cache_valid w _); [reflexivity|].
    unfold bind, listdir.
    now apply load_cache_scan_ext.
  - intros device build debug w. unfold load_cache.
    replace (cache_path device (of_opt build) (of_opt (Some "")))
      with (cache_path device (of_opt build) (of_opt None))
      by (symmetry; now apply cache_path_falsy_version).
    destruct (cache_valid w _); [reflexivity|].
    unfold bind, listdir.
    now apply load_cache_scan_ext.
Qed.

(** C1. The bulk entry ["iPhone9,3,,19H370"] is cut at every comma: the
    product is ["iPhone9"], the version ["3"], and the third field is
    empty, so there is no build.  The entry is not skipped, and what is
    resolved is ["iPhone9"] with version ["3"] and no build. *)
Theorem bulk_entry_with_comma_in_device `{PyLib} (debug : bool) (w : world) :
  PyStr.split "," "iPhone9,3,,19H370" = ["iPhone9"; "3"; ""; "19H370"]
  /\ parse_entry "iPhone9,3,,19H370" = ("iPhone9", Some "3", None)
  /\ bulk_loop ["iPhone9,3,,19H370"] debug w
     = (fetch_firmware_keys "iPhone9" (Some "3") None debug ;; ret tt) w
  /\ forall product ios build,
       main (mkArgs product ios build (Some ["iPhone9,3,,19H370"]) debug) w
       = (fetch_firmware_keys "iPhone9" (Some "3") None debug ;; ret tt) w.
Proof. repeat split. Qed.

(** ** The HTTP client boundary *)

Section Client.
Context `{PyLib}.

(** The guarded request of both client calls. *)
Lemma guarded_request_only_prints (url line : string) :
  only_prints
    (try_except (data <- urlopen_json url ;; ret (Some data))
       (fun e => print (line ++ exn_str e) ;; ret None)).
Proof.
  apply only_prints_try.
  - apply only_prints_bind; auto with effects.
  - intros e. apply only_prints_bind; auto with effects.
Qed.

Lemma guarded_request_reads_net_only (url line : string) :
  reads_net_only
    (try_except (data <- urlopen_json url ;; ret (Some data))
       (fun e => print (line ++ exn_str e) ;; ret None)).
Proof.
  apply reads_net_only_try.
  - apply reads_net_only_bind; auto with effects.
  - apply only_prints_bind; auto with effects.
  - intros e. apply reads_net_only_bind; auto with effects.
Qed.

(** The guarded request never raises. *)
Lemma guarded_request_returns (url line : string) (w : world) :
  exists r,
    fst (try_except (data <- urlopen_json url ;; ret (Some data))
           (fun e => print (line ++ exn_str e) ;; ret None) w) = Ok r.
Proof.
  unfold try_except, bind, urlopen_json, ret, print.
  destruct (net w url) as [m|b]; simpl; [now exists None|].
  destruct (json_loads b); simpl; eauto.
Qed.

Lemma discover_scan_only_prints (items : list (string * pyval))
    (verbose : bool) :
  only_prints (discover_scan items verbose).
Proof.
  induction items as [|[title entry] items IH]; cbn [discover_scan];
    [auto with effects|].
  destruct (PyStr.startswith "Keys:" title); [|exact IH].
  apply only_prints_bind; [auto with effects|]. intros p.
  apply only_prints_bind; [auto with effects|]. intros b.
  apply only_prints_bind; [auto with effects|]. intros v.
  apply only_prints_bind; auto with effects.
Qed.

Lemma discover_scan_reads_net_only (items : list (string * pyval))
    (verbose : bool) :
  reads_net_only (discover_scan items verbose).
Proof.
  induction items as [|[title entry] items IH]; cbn [discover_scan];
    [auto with effects|].
  destruct (PyStr.startswith "Keys:" title); [|exact IH].
  apply reads_net_only_bind; [auto with effects..|]. intros p.
  apply reads_net_only_bind; [auto with effects..|]. intros b.
  apply reads_net_only_bind; [auto with effects..|]. intros v.
  apply reads_net_only_bind; auto with effects.
Qed.

Lemma discover_update_line_only_prints (device : string)
    (version build : option string) (verbose : bool) :
  only_prints (discover_update_line device version build verbose).
Proof.
  unfold discover_update_line.
  apply only_prints_bind; [auto with effects|]. intros _.
  apply only_prints_bind; [apply guarded_request_only_prints|].
  intros [data|]; [|auto with effects].
  apply only_prints_bind; [auto with effects|]. intros results.
  destruct (negb (truthy results)); [auto with effects|].
  apply only_prints_bind; [auto with effects|]. intros items.
  apply discover_scan_only_prints.
Qed.

Lemma discover_update_line_reads_net_only (device : string)
    (version build : option string) (verbose : bool) :
  reads_net_only (discover_update_line device version build verbose).
Proof.
  unfold discover_update_line.
  apply reads_net_only_bind; [auto with effects..|]. intros _.
  apply reads_net_only_bind;
    [apply guarded_request_reads_net_only
    | apply guarded_request_only_prints|].
  intros [data|]; [|auto with effects].
  apply reads_net_only_bind; [auto with effects..|]. intros results.
  destruct (negb (truthy results)); [auto with effects|].
  apply reads_net_only_bind; [auto with effects..|]. intros items.
  apply discover_scan_reads_net_only.
Qed.

Lemma fetch_keys_only_prints (device : string) (build : pyval)
    (update : string) (verbose : bool) :
  only_prints (fetch_keys device build update verbose).
Proof.
  unfold fetch_keys.
  apply only_prints_bind; [auto with effects|]. intros _.
  apply only_prints_bind; [apply guarded_request_only_prints|].
  intros [data|]; auto with effects.
Qed.

Lemma fetch_keys_reads_net_only (device : string) (build : pyval)
    (update : string) (verbose : bool) :
  reads_net_only (fetch_keys device build update verbose).
Proof.
  unfold fetch_keys.
  apply reads_net_only_bind; [auto with effects..|]. intros _.
  apply reads_net_only_bind;
    [apply guarded_request_reads_net_only
    | apply guarded_request_only_prints|].
  intros [data|]; auto with effects.
Qed.

(** [fetch_keys] never raises: it returns a non-empty object or [None]. *)
Lemma fetch_keys_returns (device : string) (build : pyval) (update : string)
    (verbose : bool) (w : world) :
  exists keys,
    fst (fetch_keys device build update verbose w) = Ok keys
    /\ (keys = PNone \/ (is_dict keys = true /\ truthy keys = true)).
Proof.
  unfold fetch_keys, bind at 1.
  destruct (print_if verbose _ w) as [[[]|e] w1] eqn:P.
  - unfold bind.
    destruct (guarded_request_returns
                (fetch_keys_url device build update)
                "[-] Fetch keys request failed: " w1) as [r R].
    destruct (try_except _ _ w1) as [[r'|e] w2]; simpl in R;
      [injection R as ->|discriminate].
    destruct r as [data|]; simpl; [|eauto].
    destruct (is_dict data && truthy data) eqn:D; [|eauto].
    apply andb_true_iff in D. eauto.
  - destruct verbose; discriminate P.
Qed.

(** What [discover_update_line] does with the answer to its request. *)
Lemma discover_update_line_outcome (device : string)
    (version build : option string) (verbose : bool) (w : world) :
  fst (discover_update_line device version build verbose w)
  = match net w (discovery_url device version build) with
    | NetFail _ => Ok (None, PNone, PNone)
    | Body body =>
        match json_loads body with
        | inl _ => Ok (None, PNone, PNone)
        | inr data =>
            match dict_get data "results" (PDict []) with
            | Raise e => Raise e
            | Ok results =>
                if negb (truthy results) then Ok (None, PNone, PNone)
                else
                  match dict_items results with
                  | Raise e => Raise e
                  | Ok items =>
                      fst (discover_scan items verbose
                             (snd (print_if verbose
                                     ("[DEBUG] Discovery URL: "
                                      ++ discovery_url device version build)
                                     w)))
                  end
            end
        end
    end.
Proof.
  unfold discover_update_line, bind, try_except, urlopen_json, lift, ret.
  destruct verbose; simpl;
    (destruct (net w _) as [m|b]; simpl; [reflexivity|]);
    (destruct (json_loads b) as [m|data]; simpl; [reflexivity|]);
    (destruct (dict_get data "results" (PDict [])) as [results|e]; simpl;
       [|reflexivity]);
    (destruct (truthy results); simpl; [|reflexivity]);
    (destruct (dict_items results) as [items|e]; simpl; reflexivity).
Qed.

(** The diagnostic of a failed discovery request. *)
Lemma discover_update_line_diagnostic (device : string)
    (version build : option string) (w : world) (msg : string) :
  net w (discovery_url device version build) = NetFail msg ->
  stdout (snd (discover_update_line device version build false w))
  = (stdout w ++ [("[-] Discovery request failed: " ++ msg)%string])%list.
Proof.
  intros E.
  unfold discover_update_line, bind, try_except, urlopen_json, lift, ret.
  simpl. rewrite E. reflexivity.
Qed.

End Client.

(** C2. A discovery response that is JSON but not an object (a list, a
    string, a number, [null]) passes the guarded request and then makes
    [data.get] raise [AttributeError], which [discover_update_line] does
    not catch: the exception leaves the call.  ([fetch_keys] checks
    [isinstance(data, dict)] and never raises, see [fetch_keys_returns];
    a transport failure or a body that is not JSON gives an absent
    result, see [discover_update_line_outcome].) *)
Theorem discovery_raises_on_non_object `{PyLib} (device : string)
    (version build : option string) (verbose : bool) (w : world)
    (body : string) (data : pyval) :
  net w (discovery_url device version build) = Body body ->
  json_loads body = inr data ->
  is_dict data = false ->
  fst (discover_update_line device version build verbose w)
  = Raise AttributeError.
Proof.
  intros N J D. rewrite discover_update_line_outcome, N, J.
  destruct data; try reflexivity. discriminate D.
Qed.

Lemma discovery_raises_on_non_object_witness :
  let w := Sample.empty_world (Sample.answering "[]") in
  net w (discovery_url "iPhone9,3" None (Some "19H370")) = Body "[]"
  /\ json_loads (PyLib := Sample.lib) "[]" = inr (PList [])
  /\ is_dict (PList []) = false
  /\ fst (discover_update_line (H := Sample.lib)
            "iPhone9,3" None (Some "19H370") false w)
     = Raise AttributeError.
Proof.
  intros w.
  assert (N : net w (discovery_url "iPhone9,3" None (Some "19H370"))
              = Body "[]") by reflexivity.
  assert (J : json_loads (PyLib := Sample.lib) "[]" = inr (PList []))
    by (vm_compute; reflexivity).
  assert (D : is_dict (PList []) = false) by reflexivity.
  repeat (split; [assumption|]).
  exact (discovery_raises_on_non_object (H := Sample.lib)
           "iPhone9,3" None (Some "19H370") false w "[]" (PList []) N J D).
Defined.

(** ** The resolution *)

Section Resolution.
Context `{PyLib}.

Lemma bind_run {A B} (c : M A) (k : A -> M B) (w : world) :
  bind c k w
  = match c w with
    | (Ok a, w') => k a w'
    | (Raise e, w') => (Raise e, w')
    end.
Proof. reflexivity. Qed.

(** A computation that only prints and then fails the resolution. *)
Lemma give_up_outcome (line : string) (w : world) :
  (print line ;; ret (PNone, @None string)) w
  = (Ok (PNone, None),
     mkWorld (files w) (now w) (stdout w ++ [line])%list (net w) (writable w)).
Proof. reflexivity. Qed.

End Resolution.

(** C8. On a cache miss, when discovery gives no update line, or gives one
    and the key fetch gives nothing, [fetch_firmware_keys] returns no keys
    and no output file, and leaves every file as it was: neither the cache
    file nor the output file is written. *)
Theorem failed_resolution_writes_nothing `{PyLib} (device : string)
    (version build : option string) (debug : bool) (w : world)
    (cached : pyval) (cache_file update_line : option string)
    (discovered_build discovered_version : pyval) :
  fst (load_cache device build version debug w) = Ok (cached, cache_file) ->
  truthy cached = false ->
  fst (discover_update_line device version build debug w)
  = Ok (update_line, discovered_build, discovered_version) ->
  (has_update_line update_line = false
   \/ exists update keys,
        update_line = Some update
        /\ fst (fetch_keys device
                  (if given build then of_opt build else discovered_build)
                  update debug w) = Ok keys
        /\ truthy keys = false) ->
  fst (fetch_firmware_keys device version build debug w) = Ok (PNone, None)
  /\ files (snd (fetch_firmware_keys device version build debug w))
     = files w.
Proof.
  intros L C D K.
  unfold fetch_firmware_keys. rewrite bind_run.
  destruct (load_cache_only_prints device build version debug w)
    as (F1 & _ & N1 & _).
  destruct (load_cache device build version debug w) as [[[c cf]|e] w1];
    simpl in L, F1, N1; [|discriminate].
  injection L as -> ->. rewrite C. rewrite bind_run.
  destruct (discover_update_line_only_prints device version build debug w1)
    as (F2 & _ & N2 & _).
  pose proof (discover_update_line_reads_net_only device version build debug
                w1 w N1) as R2.
  rewrite D in R2.
  destruct (discover_update_line device version build debug w1)
    as [[[[u db] dv]|e] w2]; simpl in R2, F2, N2; [|discriminate].
  injection R2 as -> -> ->.
  destruct update_line as [update|].
  - destruct (PyStr.nonempty update) eqn:U.
    + destruct K as [K|(update' & keys & E & K & T)];
        [unfold has_update_line, given in K; simpl in K; congruence|].
      injection E as <-.
      rewrite bind_run.
      destruct (only_prints_print_if debug
                  ("[DEBUG] Waiting " ++ "2" ++ "s before fetching keys...")
                  w2) as (F3 & _ & N3 & _).
      destruct (print_if debug _ w2) as [[[]|e] w3] eqn:P3;
        [|destruct debug; discriminate P3].
      simpl in F3, N3. rewrite bind_run.
      destruct (keeps_files_sleep POLITE_DELAY w3) as (F4 & N4 & _).
      destruct (sleep POLITE_DELAY w3) as [[[]|e] w4] eqn:P4;
        [|discriminate P4].
      simpl in F4, N4. rewrite bind_run.
      set (fb := if given build then of_opt build else discovered_build) in *.
      destruct (fetch_keys_only_prints device fb update debug w4)
        as (F5 & _ & N5 & _).
      assert (N : net w4 = net w) by congruence.
      pose proof (fetch_keys_reads_net_only device fb update debug w4 w N)
        as R5.
      rewrite K in R5.
      destruct (fetch_keys device fb update debug w4) as [[k|e] w5];
        simpl in R5, F5, N5; [|discriminate].
      injection R5 as ->. rewrite T. change (negb false) with true. cbv iota.
      rewrite give_up_outcome. simpl. split; [reflexivity | congruence].
    + rewrite give_up_outcome. simpl. split; [reflexivity | congruence].
  - rewrite give_up_outcome. simpl. split; [reflexivity | congruence].
Qed.

Lemma failed_resolution_writes_nothing_witness :
  let w := Sample.empty_world Sample.offline in
  fst (load_cache (H := Sample.lib) "iPhone9,3" (Some "19H370") None false w)
  = Ok (PNone, None)
  /\ truthy PNone = false
  /\ fst (discover_update_line (H := Sample.lib)
            "iPhone9,3" None (Some "19H370") false w)
     = Ok (None, PNone, PNone)
  /\ has_update_line None = false
  /\ fst (fetch_firmware_keys (H := Sample.lib)
            "iPhone9,3" None (Some "19H370") false w) = Ok (PNone, None)
  /\ files (snd (fetch_firmware_keys (H := Sample.lib)
                   "iPhone9,3" None (Some "19H370") false w))
     = files w.
Proof.
  intros w.
  assert (L : fst (load_cache (H := Sample.lib)
                     "iPhone9,3" (Some "19H370") None false w)
              = Ok (PNone, None)) by (vm_compute; reflexivity).
  assert (C : truthy PNone = false) by reflexivity.
  assert (D : fst (discover_update_line (H := Sample.lib)
                     "iPhone9,3" None (Some "19H370") false w)
              = Ok (None, PNone, PNone)) by (vm_compute; reflexivity).
  assert (U : has_update_line None = false) by reflexivity.
  split; [exact L|]. split; [exact C|]. split; [exact D|]. split; [exact U|].
  exact (failed_resolution_writes_nothing (H := Sample.lib)
           "iPhone9,3" None (Some "19H370") false w PNone None None
           PNone PNone L C D (or_introl U)).
Defined.

(** * Further properties of the program *)

(** ** Escaping and the request URLs *)

Section EscapingMore.

Lemma contains_char_app (c : ascii) (a b : string) :
  PyStr.contains (String c "") (a ++ b)
  = PyStr.contains (String c "") a || PyStr.contains (String c "") b.
Proof.
  induction a as [|x a IH]; [reflexivity|].
  cbn [append PyStr.contains PyStr.startswith]. rewrite IH.
  apply orb_assoc.
Qed.

Lemma has_any_app (cs : list ascii) (a b : string) :
  has_any cs (a ++ b) = has_any cs a || has_any cs b.
Proof.
  unfold has_any. induction cs as [|c cs IH]; [reflexivity|].
  cbn [existsb]. rewrite IH, contains_char_app.
  destruct (PyStr.contains (String c "") a),
    (PyStr.contains (String c "") b),
    (existsb (fun c0 => PyStr.contains (String c0 "") a) cs),
    (existsb (fun c0 => PyStr.contains (String c0 "") b) cs); reflexivity.
Qed.

Lemma has_any_empty (cs : list ascii) : has_any cs "" = false.
Proof. unfold has_any. induction cs as [|c cs IH]; simpl; auto. Qed.

Lemma has_any_map_chars (cs : list ascii) (f : ascii -> string) (s : string) :
  (forall x, has_any cs (f x) = false) -> has_any cs (map_chars f s) = false.
Proof.
  intros F. induction s as [|x s IH]; cbn [map_chars].
  - apply has_any_empty.
  - now rewrite has_any_app, F, IH.
Qed.

Lemma escape_char_clean (x : ascii) : has_any reserved (escape_char x) = false.
Proof. destruct x as [[] [] [] [] [] [] [] []]; reflexivity. Qed.

Lemma smw_path_escape_clean (s : string) :
  has_any reserved (smw_path_escape s) = false.
Proof.
  rewrite smw_path_escape_chars. apply has_any_map_chars, escape_char_clean.
Qed.

Lemma smw_path_escape_app (a b : string) :
  smw_path_escape (a ++ b) = smw_path_escape a ++ smw_path_escape b.
Proof. rewrite !smw_path_escape_chars. apply map_chars_app. Qed.

(** Without [:], which the base URL itself holds. *)
Lemma smw_path_escape_url_clean (s : string) :
  has_any ["["; "]"; " "; ","]%char (smw_path_escape s) = false.
Proof.
  rewrite smw_path_escape_chars. apply has_any_map_chars.
  intros x. destruct x as [[] [] [] [] [] [] [] []]; reflexivity.
Qed.

End EscapingMore.

(** X1. What [smw_path_escape] returns holds none of the five reserved
    characters, and escaping it again changes nothing. *)
Theorem smw_path_escape_idempotent (s : string) :
  has_any reserved (smw_path_escape s) = false
  /\ smw_path_escape (smw_path_escape s) = smw_path_escape s.
Proof.
  split; [apply smw_path_escape_clean|].
  rewrite !smw_path_escape_chars, map_chars_fuse.
  apply map_chars_ext.
  intros c. destruct c as [[] [] [] [] [] [] [] []]; reflexivity.
Qed.

(** X2. Escaping goes through concatenation: a query can be escaped piece
    by piece. *)
Theorem smw_path_escape_concat (a b c : string) :
  smw_path_escape (a ++ b ++ c)
  = smw_path_escape a ++ smw_path_escape b ++ smw_path_escape c.
Proof. now rewrite !smw_path_escape_app. Qed.

(** X3. Escaping loses information: a text that already holds a token is
    escaped like the text with the reserved character in its place, so two
    different queries can give one URL. *)
Theorem smw_path_escape_collision (a b : string) :
  a ++ "[" ++ b <> a ++ "-5B" ++ b
  /\ smw_path_escape (a ++ "[" ++ b) = smw_path_escape (a ++ "-5B" ++ b)
  /\ smw_path_escape (a ++ " " ++ b) = smw_path_escape (a ++ "-20" ++ b)
  /\ smw_path_escape (a ++ "," ++ b) = smw_path_escape (a ++ "%2C" ++ b).
Proof.
  split.
  - intros E. apply app_inv_head' in E. discriminate E.
  - rewrite !smw_path_escape_app. repeat split.
Qed.

(** X4. Whatever the device, the version and the build are, the URL of the
    discovery request and the URL of the key request hold no space, no
    bracket and no comma. *)
Theorem request_urls_escaped `{PyLib} (device : string)
    (version build : option string) (final_build : pyval) (update : string) :
  has_any ["["; "]"; " "; ","]%char (discovery_url device version build)
  = false
  /\ has_any ["["; "]"; " "; ","]%char
       (fetch_keys_url device final_build update) = false.
Proof.
  unfold discovery_url, fetch_keys_url.
  rewrite !has_any_app, !smw_path_escape_url_clean. split; reflexivity.
Qed.

(** ** More on the cache store *)

Section CacheStoreMore.
Context `{PyLib}.

Lemma Qltb_false (x y : Q) : Qltb x y = false <-> (y <= x)%Q.
Proof.
  unfold Qltb. rewrite negb_false_iff. apply Qle_bool_iff.
Qed.

(** With [debug] off, reading a hit prints nothing. *)
Lemma hit_silent (line path : string) (w : world) :
  snd ((print_if false line ;;
        v <- json_load_file path ;;
        ret (v, Some path)) w) = w.
Proof.
  unfold bind, print_if, ret, json_load_file.
  destruct (lookup path (files w)) as [[t c|t]|]; try reflexivity.
  destruct (json_loads c); reflexivity.
Qed.

Lemma load_cache_scan_silent (device : string)
    (build version : option string) (names : list string) (w : world) :
  snd (load_cache_scan device build version false names w) = w.
Proof.
  induction names as [|f names IH]; [reflexivity|].
  cbn [load_cache_scan].
  destruct (fallback_match device build version f); [|exact IH].
  destruct (cache_valid w (path_join CACHE_DIR f)); [|exact IH].
  apply hit_silent.
Qed.

(** A hit never comes without a path. *)
Lemma read_outcome_has_path (w : world) (path : string) (c : pyval) :
  read_outcome w path <> Ok (c, None).
Proof.
  unfold read_outcome.
  destruct (lookup path (files w)) as [[t x|t]|]; try discriminate.
  destruct (json_loads x); discriminate.
Qed.

(** The scan comes back empty-handed exactly when no name is both matching
    and valid; it then leaves the world as it is. *)
Lemma load_cache_scan_miss (device : string) (build version : option string)
    (debug : bool) (names : list string) (w : world) :
  fst (load_cache_scan device build version debug names w) = Ok (PNone, None)
  <-> forall g, In g names ->
        fallback_match device build version g
        && cache_valid w (path_join CACHE_DIR g) = false.
Proof.
  induction names as [|f names IH]; cbn [load_cache_scan].
  - split; [intros _ g [] | reflexivity].
  - destruct (fallback_match device build version f) eqn:Em.
    + destruct (cache_valid w (path_join CACHE_DIR f)) eqn:Ev.
      * rewrite hit_outcome. split.
        -- intros R. now apply read_outcome_has_path in R.
        -- intros N. specialize (N f (or_introl eq_refl)).
           rewrite Em, Ev in N. discriminate N.
      * rewrite IH. split.
        -- intros N g [<-|I]; [now rewrite Em, Ev | now apply N].
        -- intros N g I. apply N. now right.
    + rewrite IH. split.
      * intros N g [<-|I]; [now rewrite Em | now apply N].
      * intros N g I. apply N. now right.
Qed.

Lemma load_cache_scan_miss_world (device : string)
    (build version : option string) (debug : bool) (names : list string)
    (w : world) :
  fst (load_cache_scan device build version debug names w) = Ok (PNone, None)
  -> snd (load_cache_scan device build version debug names w) = w.
Proof.
  induction names as [|f names IH]; cbn [load_cache_scan]; [reflexivity|].
  destruct (fallback_match device build version f); [|exact IH].
  destruct (cache_valid w (path_join CACHE_DIR f)); [|exact IH].
  rewrite hit_outcome. intros R. now apply read_outcome_has_path in R.
Qed.

Lemma store_keys (p : string) (n : node) (l : list (string * node)) :
  lookup p l <> None -> map fst (store p n l) = map fst l.
Proof.
  induction l as [|[q m] l IH]; simpl; [congruence|].
  destruct (String.eqb p q); simpl; [reflexivity|].
  intros L. now rewrite IH.
Qed.

Lemma app_inv_tail' (a b s : string) : a ++ s = b ++ s -> a = b.
Proof.
  intros E.
  assert (L : String.length a = String.length b).
  { apply (f_equal String.length) in E. rewrite !length_app in E. lia. }
  revert b E L. induction a as [|x a IH]; intros [|y b] E L;
    try discriminate L; [reflexivity|].
  simpl in E. injection E as -> E. f_equal. apply IH; [exact E|].
  simpl in L. lia.
Qed.

Lemma contains_char_cons (c x : ascii) (s : string) :
  PyStr.contains (String c "") (String x s) = false ->
  c <> x /\ PyStr.contains (String c "") s = false.
Proof.
  cbn [PyStr.contains PyStr.startswith]. rewrite andb_true_r.
  intros E. apply orb_false_iff in E as [E1 E2].
  apply Ascii.eqb_neq in E1. auto.
Qed.

(** Two texts cut at the first occurrence of a character are cut alike. *)
Lemma first_cut_unique (c : ascii) (a a' x y : string) :
  PyStr.contains (String c "") a = false ->
  PyStr.contains (String c "") a' = false ->
  a ++ String c x = a' ++ String c y -> a = a' /\ x = y.
Proof.
  revert a'. induction a as [|h a IH]; intros [|h' a'] Ca Ca' E; simpl in E.
  - injection E as ->. auto.
  - injection E as -> _. apply contains_char_cons in Ca' as [N _].
    congruence.
  - injection E as -> _. apply contains_char_cons in Ca as [N _].
    congruence.
  - injection E as -> E.
    apply contains_char_cons in Ca as [_ Ca].
    apply contains_char_cons in Ca' as [_ Ca'].
    destruct (IH a' Ca Ca' E) as [-> ->]. auto.
Qed.


End CacheStoreMore.

(** X5. [load_cache] only reads: the files, the clock, the network and the
    permissions are the same after it, and with [debug] off so is the whole
    world, nothing being printed. *)
Theorem load_cache_reads_only `{PyLib} (device : string)
    (build version : option string) (debug : bool) (w : world) :
  files (snd (load_cache device build version debug w)) = files w
  /\ now (snd (load_cache device build version debug w)) = now w
  /\ net (snd (load_cache device build version debug w)) = net w
  /\ writable (snd (load_cache device build version debug w)) = writable w
  /\ snd (load_cache device build version false w) = w.
Proof.
  destruct (load_cache_only_prints device build version debug w)
    as (F & T & N & W).
  repeat (split; [assumption|]).
  unfold load_cache. destruct (cache_valid w _).
  - apply hit_silent.
  - unfold bind, listdir. apply load_cache_scan_silent.
Qed.

(** X6. [load_cache] returns [(None, None)] exactly when the exact path is
    not valid and no name of the cache directory both matches and is
    valid; nothing is printed then, whatever [debug] is. *)
Theorem load_cache_miss `{PyLib} (device : string)
    (build version : option string) (debug : bool) (w : world) :
  (fst (load_cache device build version debug w) = Ok (PNone, None)
   <-> cache_valid w (cache_path device (of_opt build) (of_opt version))
       = false
       /\ forall g, In g (children CACHE_DIR (files w)) ->
            ~ (names_firmware device build version g
               /\ cache_valid w (path_join CACHE_DIR g) = true))
  /\ (fst (load_cache device build version debug w) = Ok (PNone, None) ->
      snd (load_cache device build version debug w) = w).
Proof.
  unfold load_cache.
  destruct (cache_valid w (cache_path _ _ _)) eqn:Ev.
  - rewrite hit_outcome. split.
    + split; [intros R; now apply read_outcome_has_path in R|].
      intros [D _]. discriminate D.
    + intros R. now apply read_outcome_has_path in R.
  - unfold bind, listdir. split.
    + rewrite load_cache_scan_miss. split.
      * intros N. split; [reflexivity|]. intros g I [M V].
        apply fallback_match_spec in M. specialize (N g I).
        rewrite M, V in N. discriminate N.
      * intros [_ N] g I.
        destruct (fallback_match device build version g) eqn:M;
          [|reflexivity].
        destruct (cache_valid w (path_join CACHE_DIR g)) eqn:V;
          [|reflexivity].
        exfalso. apply (N g I). split; [|exact V].
        now apply fallback_match_spec.
    + apply load_cache_scan_miss_world.
Qed.

(** X7. A fresh cache file whose content does not decode is not treated as
    a miss: [load_cache] raises the decoding error, and so does
    [fetch_firmware_keys], before any request and without writing a
    file. *)
Theorem corrupt_cache_file_raises `{PyLib} (device : string)
    (version build : option string) (debug : bool) (w : world)
    (t : Q) (content msg : string) :
  lookup (cache_path device (of_opt build) (of_opt version)) (files w)
  = Some (File t content) ->
  (now w - t < CACHE_TTL)%Q ->
  json_loads content = inl msg ->
  fst (load_cache device build version debug w) = Raise (JSONDecodeError msg)
  /\ fst (fetch_firmware_keys device version build debug w)
     = Raise (JSONDecodeError msg)
  /\ files (snd (fetch_firmware_keys device version build debug w))
     = files w.
Proof.
  intros L T J.
  assert (R : fst (load_cache device build version debug w)
              = Raise (JSONDecodeError msg)).
  { rewrite load_cache_exact.
    - unfold read_outcome. now rewrite L, J.
    - apply cache_valid_iff. eexists. split; [exact L | exact T]. }
  split; [exact R|].
  unfold fetch_firmware_keys. rewrite bind_run.
  destruct (load_cache_only_prints device build version debug w)
    as (F & _).
  destruct (load_cache device build version debug w) as [[r|e] w1];
    simpl in R, F; [discriminate R|].
  simpl. split; [exact R | exact F].
Qed.

Lemma corrupt_cache_file_raises_witness :
  let w := mkWorld [(".cache/iPhone9,3_19H370.json", File 0 "{")]
             (inject_Z 60) [] Sample.offline Sample.always in
  lookup (cache_path (H := Sample.lib) "iPhone9,3"
            (of_opt (Some "19H370")) (of_opt None)) (files w)
  = Some (File 0 "{")
  /\ (now w - 0 < CACHE_TTL)%Q
  /\ json_loads (PyLib := Sample.lib) "{" = inl "Expecting value"
  /\ fst (fetch_firmware_keys (H := Sample.lib)
            "iPhone9,3" None (Some "19H370") false w)
     = Raise (JSONDecodeError "Expecting value").
Proof.
  intros w.
  assert (L : lookup (cache_path (H := Sample.lib) "iPhone9,3"
                        (of_opt (Some "19H370")) (of_opt None)) (files w)
              = Some (File 0 "{")) by reflexivity.
  assert (T : (now w - 0 < CACHE_TTL)%Q) by (vm_compute; reflexivity).
  assert (J : json_loads (PyLib := Sample.lib) "{" = inl "Expecting value")
    by (vm_compute; reflexivity).
  split; [exact L|]. split; [exact T|]. split; [exact J|].
  exact (proj1 (proj2 (corrupt_cache_file_raises (H := Sample.lib)
                         "iPhone9,3" None (Some "19H370") false w 0 "{"
                         "Expecting value" L T J))).
Defined.

Lemma load_cache_miss_witness :
  let w := Sample.empty_world Sample.offline in
  fst (load_cache (H := Sample.lib) "iPhone9,3" (Some "19H370") None true w)
  = Ok (PNone, None)
  /\ snd (load_cache (H := Sample.lib)
            "iPhone9,3" (Some "19H370") None true w) = w.
Proof.
  intros w.
  assert (R : fst (load_cache (H := Sample.lib)
                     "iPhone9,3" (Some "19H370") None true w)
              = Ok (PNone, None)) by (vm_compute; reflexivity).
  split; [exact R|].
  exact (proj2 (load_cache_miss (H := Sample.lib)
                  "iPhone9,3" (Some "19H370") None true w) R).
Defined.

(** X8. The scan matches by substring, so it can answer from the file of
    another firmware: when the exact path is not valid and the first name
    listed is the file of a device whose identifier starts with the one
    asked for, with any build and the version asked for, [load_cache]
    returns the content of that file. *)
Theorem fallback_answers_from_other_device `{PyLib} (device suffix b v : string)
    (debug : bool) (w : world) (others : list string) (t : Q)
    (content : string) (j : pyval) :
  let fname := (device ++ suffix) ++ "_" ++ b ++ "_" ++ v ++ ".json" in
  v <> "" ->
  cache_valid w (cache_path device PNone (PStr v)) = false ->
  children CACHE_DIR (files w) = fname :: others ->
  lookup (path_join CACHE_DIR fname) (files w) = Some (File t content) ->
  (now w - t < CACHE_TTL)%Q ->
  json_loads content = inr j ->
  fst (load_cache device None (Some v) debug w)
  = Ok (j, Some (path_join CACHE_DIR fname)).
Proof.
  intros fname Nv Hx Hl Hp Ht Hj.
  unfold load_cache. cbn [of_opt]. rewrite Hx.
  unfold bind, listdir. rewrite Hl.
  rewrite (load_cache_scan_first device None (Some v) debug w [] others fname).
  - unfold read_outcome. now rewrite Hp, Hj.
  - intros g [].
  - apply fallback_match_spec. split.
    + exists "", (suffix ++ "_" ++ b ++ "_" ++ v ++ ".json").
      unfold fname. now rewrite !app_assoc'.
    + exists v. split; [now right|]. split; [exact Nv|].
      exists ((device ++ suffix) ++ "_" ++ b ++ "_"), ".json".
      unfold fname. now rewrite !app_assoc'.
  - apply cache_valid_iff. eexists. split; [exact Hp | exact Ht].
Qed.

Lemma fallback_answers_from_other_device_witness :
  let w := Sample.one_file_world "iPad11_19H370_15.0.json" 0
             (inject_Z 86400) in
  "15.0" <> ""
  /\ cache_valid w (cache_path (H := Sample.lib) "iPad1" PNone (PStr "15.0"))
     = false
  /\ children CACHE_DIR (files w) = ["iPad11_19H370_15.0.json"]
  /\ fst (load_cache (H := Sample.lib) "iPad1" None (Some "15.0") false w)
     = Ok (Sample.bundle, Some ".cache/iPad11_19H370_15.0.json").
Proof.
  intros w.
  assert (Nv : "15.0" <> "") by discriminate.
  assert (Hx : cache_valid w (cache_path (H := Sample.lib)
                                "iPad1" PNone (PStr "15.0")) = false)
    by reflexivity.
  assert (Hl : children CACHE_DIR (files w) = ["iPad11_19H370_15.0.json"])
    by reflexivity.
  assert (Hp : lookup (path_join CACHE_DIR "iPad11_19H370_15.0.json")
                 (files w) = Some (File 0 Sample.bundle_text))
    by reflexivity.
  assert (Ht : (now w - 0 < CACHE_TTL)%Q) by (vm_compute; reflexivity).
  assert (Hj : json_loads (PyLib := Sample.lib) Sample.bundle_text
               = inr Sample.bundle) by (vm_compute; reflexivity).
  split; [exact Nv|]. split; [exact Hx|]. split; [exact Hl|].
  exact (fallback_answers_from_other_device (H := Sample.lib)
           "iPad1" "1" "19H370" "15.0" false w [] 0 Sample.bundle_text
           Sample.bundle Nv Hx Hl Hp Ht Hj).
Defined.

(** X9. Validity only decays: a path valid at some time is valid at every
    earlier time, so once a file is stale it stays stale until it is
    written again; and an entry dated in the future is valid. *)
Theorem cache_valid_decays (w : world) (path : string) :
  (forall t t',
     (t <= t')%Q ->
     cache_valid (at_time t' w) path = true ->
     cache_valid (at_time t w) path = true)
  /\ (forall n,
        lookup path (files w) = Some n ->
        (now w <= node_mtime n)%Q ->
        cache_valid w path = true).
Proof.
  split.
  - intros t t' Le V.
    apply cache_valid_iff in V as (n & E & F).
    apply cache_valid_iff. exists n. split; [exact E|].
    unfold fresh in *. simpl in *. lra.
  - intros n E Le. apply cache_valid_iff. exists n. split; [exact E|].
    unfold fresh. assert (0 < CACHE_TTL)%Q by reflexivity. lra.
Qed.

Lemma cache_valid_decays_witness :
  let w := Sample.one_file_world "iPhone9,3_19H370.json" 0 0 in
  (inject_Z 60 <= inject_Z 3600)%Q
  /\ cache_valid (at_time (inject_Z 3600) w) ".cache/iPhone9,3_19H370.json"
     = true
  /\ cache_valid (at_time (inject_Z 60) w) ".cache/iPhone9,3_19H370.json"
     = true.
Proof.
  intros w.
  assert (Le : (inject_Z 60 <= inject_Z 3600)%Q) by (vm_compute; discriminate).
  assert (V : cache_valid (at_time (inject_Z 3600) w)
                ".cache/iPhone9,3_19H370.json" = true) by reflexivity.
  split; [exact Le|]. split; [exact V|].
  exact (proj1 (cache_valid_decays w ".cache/iPhone9,3_19H370.json")
           (inject_Z 60) (inject_Z 3600) Le V).
Defined.

(** X10. A [save_cache] that returns has touched one path only: every
    other path has the entry it had, the path written holds the compact
    JSON of the data dated by the clock, an overwrite adds no second
    entry, and one line is printed.  A [save_cache] that raises has changed
    nothing and printed nothing. *)
Theorem save_cache_frame `{PyLib} (data : pyval) (device : string)
    (build version : pyval) (w : world) :
  let path := cache_path device build version in
  (forall w1,
     save_cache data device build version w = (Ok tt, w1) ->
     lookup path (files w1) = Some (File (now w) (json_dumps data))
     /\ (forall q, q <> path -> lookup q (files w1) = lookup q (files w))
     /\ (lookup path (files w) <> None ->
         map fst (files w1) = map fst (files w))
     /\ now w1 = now w
     /\ stdout w1 = (stdout w ++ [("[+] Saved cache " ++ path)%string])%list)
  /\ (forall e w1,
        save_cache data device build version w = (Raise e, w1) ->
        w1 = w /\ e = FileError path).
Proof.
  intros path. split.
  - intros w1 S. pose proof (save_cache_files _ _ _ _ _ _ S) as F.
    fold path in F. rewrite F.
    split; [apply lookup_store_same|].
    split; [intros q D; apply lookup_store_other; congruence|].
    split; [apply store_keys|].
    revert S. unfold save_cache, bind, json_dump_file, print. fold path.
    destruct (lookup path (files w)) as [[t x|t]|];
      try discriminate;
      (destruct (writable w path); [|discriminate]);
      simpl; intros E; injection E as <-; auto.
  - intros e w1. unfold save_cache, bind, json_dump_file, print. fold path.
    destruct (lookup path (files w)) as [[t x|t]|];
      try (destruct (writable w path)); simpl; intros E;
      try discriminate E; injection E as <- <-; auto.
Qed.

Lemma save_cache_frame_witness :
  let w := Sample.one_file_world "iPhone9,3_19H370.json" 0 (inject_Z 60) in
  let w1 := snd (save_cache (H := Sample.lib) (PDict [])
                   "iPhone9,3" (PStr "19H370") PNone w) in
  save_cache (H := Sample.lib) (PDict []) "iPhone9,3" (PStr "19H370") PNone w
  = (Ok tt, w1)
  /\ lookup ".cache/iPhone9,3_19H370.json" (files w1)
     = Some (File (inject_Z 60) "{}")
  /\ map fst (files w1) = map fst (files w).
Proof.
  intros w w1.
  assert (S : save_cache (H := Sample.lib) (PDict [])
                "iPhone9,3" (PStr "19H370") PNone w = (Ok tt, w1))
    by reflexivity.
  split; [exact S|].
  destruct (proj1 (save_cache_frame (H := Sample.lib) (PDict [])
                     "iPhone9,3" (PStr "19H370") PNone w) w1 S)
    as (L & _ & K & _).
  split; [exact L|]. apply K. discriminate.
Defined.



(** X12. For builds that hold no underscore the file name of a full triple
    tells the build and the version: two such triples of one device with
    the same path are the same triple. *)
Theorem cache_path_injective_without_underscore `{PyLib}
    (device b v b' v' : string) :
  b <> "" -> v <> "" -> b' <> "" -> v' <> "" ->
  PyStr.contains "_" b = false ->
  PyStr.contains "_" b' = false ->
  cache_path device (PStr b) (PStr v) = cache_path device (PStr b') (PStr v')
  -> b = b' /\ v = v'.
Proof.
  intros Nb Nv Nb' Nv' Cb Cb' E.
  rewrite !cache_path_both in E by assumption.
  apply path_join_cache_inj in E.
  do 2 apply app_inv_head' in E.
  apply first_cut_unique in E as [-> E]; [|assumption..].
  split; [reflexivity|]. now apply app_inv_tail' in E.
Qed.

Lemma cache_path_injective_without_underscore_witness :
  "19H370" <> "" /\ "15.0.1" <> ""
  /\ PyStr.contains "_" "19H370" = false
  /\ cache_path (H := Sample.lib) "iPhone9,3" (PStr "19H370") (PStr "15.0.1")
     = cache_path (H := Sample.lib) "iPhone9,3" (PStr "19H370") (PStr "15.0.1")
  /\ "19H370" = "19H370" /\ "15.0.1" = "15.0.1".
Proof.
  assert (Nb : "19H370" <> "") by discriminate.
  assert (Nv : "15.0.1" <> "") by discriminate.
  assert (Cb : PyStr.contains "_" "19H370" = false) by reflexivity.
  split; [exact Nb|]. split; [exact Nv|]. split; [exact Cb|].
  split; [reflexivity|].
  exact (cache_path_injective_without_underscore (H := Sample.lib)
           "iPhone9,3" "19H370" "15.0.1" "19H370" "15.0.1"
           Nb Nv Nb Nv Cb Cb eq_refl).
Defined.

(** ** More on the two requests *)

Section ClientMore.
Context `{PyLib}.

Lemma bind_ok_inv {A B} (c : M A) (k : A -> M B) (w : world) (b : B) :
  fst (bind c k w) = Ok b ->
  exists a w', c w = (Ok a, w') /\ fst (k a w') = Ok b.
Proof.
  unfold bind. destruct (c w) as [[a|e] w']; [eauto | discriminate].
Qed.

Lemma neq_eqb_false (c x : ascii) :
  PyStr.contains (String c "") (String x "") = false ->
  Ascii.eqb x c = false.
Proof.
  intros E. apply contains_char_cons in E as [N _].
  apply Ascii.eqb_neq. congruence.
Qed.

Lemma split_acc_field (c : ascii) (a cur r : string) :
  PyStr.contains (String c "") a = false ->
  PyStr.split_acc c cur (a ++ String c r)
  = (cur ++ a) :: PyStr.split_acc c "" r.
Proof.
  revert cur. induction a as [|x a IH]; intros cur C; simpl.
  - now rewrite Ascii.eqb_refl, app_empty_r.
  - apply contains_char_cons in C as [N C].
    assert (E : Ascii.eqb x c = false) by (apply Ascii.eqb_neq; congruence).
    rewrite E, IH by exact C. now rewrite app_assoc'.
Qed.

Lemma split_acc_last (c : ascii) (a cur : string) :
  PyStr.contains (String c "") a = false ->
  PyStr.split_acc c cur a = [cur ++ a].
Proof.
  revert cur. induction a as [|x a IH]; intros cur C; simpl.
  - now rewrite app_empty_r.
  - apply contains_char_cons in C as [N C].
    assert (E : Ascii.eqb x c = false) by (apply Ascii.eqb_neq; congruence).
    rewrite E, IH by exact C. now rewrite app_assoc'.
Qed.

Lemma split1_acc_field (c : ascii) (a cur r : string) :
  PyStr.contains (String c "") a = false ->
  PyStr.split1_acc c cur (a ++ String c r) = [cur ++ a; r].
Proof.
  revert cur. induction a as [|x a IH]; intros cur C; simpl.
  - now rewrite Ascii.eqb_refl, app_empty_r.
  - apply contains_char_cons in C as [N C].
    assert (E : Ascii.eqb x c = false) by (apply Ascii.eqb_neq; congruence).
    rewrite E, IH by exact C. now rewrite app_assoc'.
Qed.

(** The first field of a cut at [c] holds no [c]. *)
Lemma split1_acc_head_clean (c : ascii) (s cur : string) :
  PyStr.contains (String c "") cur = false ->
  PyStr.contains (String c "") (hd "" (PyStr.split1_acc c cur s)) = false.
Proof.
  revert cur. induction s as [|x s IH]; intros cur C; simpl; [exact C|].
  destruct (Ascii.eqb x c) eqn:E; [exact C|].
  apply IH. rewrite contains_char_app, C.
  cbn [PyStr.contains PyStr.startswith].
  rewrite Ascii.eqb_sym, E. reflexivity.
Qed.

(** Pages whose title lacks the prefix are passed over. *)
Lemma discover_scan_skip (before items : list (string * pyval))
    (verbose : bool) (w : world) :
  (forall p, In p before -> PyStr.startswith "Keys:" (fst p) = false) ->
  discover_scan (before ++ items) verbose w = discover_scan items verbose w.
Proof.
  intros N. induction before as [|[t e] before IH]; [reflexivity|].
  cbn [app discover_scan].
  pose proof (N (t, e) (or_introl eq_refl)) as E. cbn [fst] in E.
  rewrite E. apply IH. intros p I. apply N. now right.
Qed.

(** The update line of a page that is found holds no space. *)
Lemma discover_scan_update_line (items : list (string * pyval))
    (verbose : bool) (w : world) (u : string) (db dv : pyval) :
  fst (discover_scan items verbose w) = Ok (Some u, db, dv) ->
  PyStr.contains " " u = false.
Proof.
  induction items as [|[t e] items IH]; cbn [discover_scan].
  - discriminate.
  - destruct (PyStr.startswith "Keys:" t); [|exact IH].
    intros R.
    apply bind_ok_inv in R as (p & w1 & _ & R).
    apply bind_ok_inv in R as (b1 & w2 & _ & R).
    apply bind_ok_inv in R as (v1 & w3 & _ & R).
    apply bind_ok_inv in R as (x & w4 & _ & R).
    simpl in R. injection R as <- _ _.
    now apply split1_acc_head_clean.
Qed.

End ClientMore.

(** X13. [fetch_keys] never raises and never writes: it returns a
    non-empty JSON object or [None], whatever the network answers.  A
    transport failure prints one diagnostic with its message; a decoded
    body that is not an object, or is an empty one, gives [None]
    silently. *)
Theorem fetch_keys_total `{PyLib} (device : string) (build : pyval)
    (update : string) (verbose : bool) (w : world) :
  (exists keys,
     fst (fetch_keys device build update verbose w) = Ok keys
     /\ (keys = PNone \/ (is_dict keys = true /\ truthy keys = true)))
  /\ files (snd (fetch_keys device build update verbose w)) = files w
  /\ (forall msg,
        net w (fetch_keys_url device build update) = NetFail msg ->
        fetch_keys device build update false w
        = (Ok PNone, printed ("[-] Fetch keys request failed: " ++ msg) w))
  /\ (forall body data,
        net w (fetch_keys_url device build update) = Body body ->
        json_loads body = inr data ->
        fetch_keys device build update false w
        = (Ok (if is_dict data && truthy data then data else PNone), w)).
Proof.
  split; [apply fetch_keys_returns|].
  split; [apply fetch_keys_only_prints|].
  split.
  - intros msg N.
    unfold fetch_keys, bind, try_except, urlopen_json, print_if, ret.
    rewrite N. reflexivity.
  - intros body data N J.
    unfold fetch_keys, bind, try_except, urlopen_json, print_if, ret.
    rewrite N, J. reflexivity.
Qed.

Lemma fetch_keys_total_witness :
  let w := Sample.empty_world Sample.offline in
  net w (fetch_keys_url (H := Sample.lib) "iPhone9,3" (PStr "19H370") "Sky")
  = NetFail "<urlopen error timed out>"
  /\ fetch_keys (H := Sample.lib) "iPhone9,3" (PStr "19H370") "Sky" false w
     = (Ok PNone,
        printed ("[-] Fetch keys request failed: "
                 ++ "<urlopen error timed out>") w).
Proof.
  intros w.
  assert (N : net w (fetch_keys_url (H := Sample.lib)
                       "iPhone9,3" (PStr "19H370") "Sky")
              = NetFail "<urlopen error timed out>") by reflexivity.
  split; [exact N|].
  exact (proj1 (proj2 (proj2 (fetch_keys_total (H := Sample.lib)
                                "iPhone9,3" (PStr "19H370") "Sky" false w)))
           "<urlopen error timed out>" N).
Defined.

(** X14. [discover_update_line] gives [(None, None, None)] without raising
    when the request fails or the body is not JSON, printing one
    diagnostic with the message, and, silently, when the body is an object
    with no ["results"] or with empty ones. *)
Theorem discovery_absent `{PyLib} (device : string)
    (version build : option string) (w : world) :
  let url := discovery_url device version build in
  (forall msg,
     net w url = NetFail msg ->
     discover_update_line device version build false w
     = (Ok (None, PNone, PNone),
        printed ("[-] Discovery request failed: " ++ msg) w))
  /\ (forall body msg,
        net w url = Body body ->
        json_loads body = inl msg ->
        discover_update_line device version build false w
        = (Ok (None, PNone, PNone),
           printed ("[-] Discovery request failed: " ++ msg) w))
  /\ (forall body kv,
        net w url = Body body ->
        json_loads body = inr (PDict kv) ->
        match assoc "results" kv with
        | Some results => truthy results = false
        | None => True
        end ->
        discover_update_line device version build false w
        = (Ok (None, PNone, PNone), w)).
Proof.
  intros url. unfold url. repeat split.
  - intros msg N.
    unfold discover_update_line, bind, try_except, urlopen_json, print_if, ret.
    rewrite N. reflexivity.
  - intros body msg N J.
    unfold discover_update_line, bind, try_except, urlopen_json, print_if, ret.
    rewrite N, J. reflexivity.
  - intros body kv N J R.
    unfold discover_update_line, bind, try_except, urlopen_json, print_if,
      ret, lift, dict_get.
    rewrite N, J. simpl.
    destruct (assoc "results" kv) as [results|]; [|reflexivity].
    simpl. rewrite R. reflexivity.
Qed.

Lemma discovery_absent_witness :
  let w := Sample.empty_world (Sample.answering "{}") in
  net w (discovery_url "iPhone9,3" None (Some "19H370")) = Body "{}"
  /\ json_loads (PyLib := Sample.lib) "{}" = inr (PDict [])
  /\ discover_update_line (H := Sample.lib)
       "iPhone9,3" None (Some "19H370") false w
     = (Ok (None, PNone, PNone), w).
Proof.
  intros w.
  assert (N : net w (discovery_url "iPhone9,3" None (Some "19H370"))
              = Body "{}") by reflexivity.
  assert (J : json_loads (PyLib := Sample.lib) "{}" = inr (PDict []))
    by (vm_compute; reflexivity).
  split; [exact N|]. split; [exact J|].
  exact (proj2 (proj2 (discovery_absent (H := Sample.lib)
                         "iPhone9,3" None (Some "19H370") w))
           "{}" [] N J I).
Defined.

(** X15. The discovery loop takes the first page whose title starts with
    [Keys:] and passes over the pages before it.  For a title
    [Keys:<update> <build> <more>], the update line is [<update>]; the
    build is the first printout of ["build"] when it is truthy, and the
    second word of the title when the page carries no printouts. *)
Theorem discover_scan_first_page `{PyLib} (before after : list (string * pyval))
    (update bld more : string) (ekv : list (string * pyval))
    (verbose : bool) (w : world) :
  let title := "Keys:" ++ update ++ " " ++ bld ++ " " ++ more in
  (forall p, In p before -> PyStr.startswith "Keys:" (fst p) = false) ->
  PyStr.contains " " update = false ->
  PyStr.contains " " bld = false ->
  (assoc "printouts" ekv = None ->
   fst (discover_scan (before ++ (title, PDict ekv) :: after) verbose w)
   = Ok (Some update, PStr bld, PNone))
  /\ (forall pkv x xs,
        assoc "printouts" ekv = Some (PDict pkv) ->
        assoc "build" pkv = Some (PList (x :: xs)) ->
        truthy x = true ->
        assoc "version" pkv = None ->
        fst (discover_scan (before ++ (title, PDict ekv) :: after) verbose w)
        = Ok (Some update, x, PNone)).
Proof.
  intros title N Cu Cb.
  assert (U : hd "" (PyStr.split1 " " (update ++ " " ++ bld ++ " " ++ more))
              = update).
  { unfold PyStr.split1.
    change (update ++ " " ++ bld ++ " " ++ more)
      with (update ++ String " " (bld ++ " " ++ more)).
    now rewrite split1_acc_field. }
  assert (P : PyStr.split " " (update ++ " " ++ bld ++ " " ++ more)
              = update :: bld :: PyStr.split " " more).
  { unfold PyStr.split.
    change (update ++ " " ++ bld ++ " " ++ more)
      with (update ++ String " " (bld ++ String " " more)).
    now rewrite !split_acc_field. }
  assert (T : PyStr.drop (String.length "Keys:") title
              = update ++ " " ++ bld ++ " " ++ more) by reflexivity.
  split.
  - intros A. rewrite discover_scan_skip by exact N.
    cbn [discover_scan].
    change (PyStr.startswith "Keys:" title) with true. cbv iota.
    rewrite T, U, P.
    unfold bind, lift, dict_get, printout, py_in, ret. rewrite A. simpl.
    destruct verbose; reflexivity.
  - intros pkv x xs A B Tx V. rewrite discover_scan_skip by exact N.
    cbn [discover_scan].
    change (PyStr.startswith "Keys:" title) with true. cbv iota.
    rewrite T, U, P.
    unfold bind, lift, dict_get, printout, py_in, py_getitem, py_first, ret.
    rewrite A. simpl. rewrite B, V. simpl. rewrite Tx. simpl.
    destruct verbose; reflexivity.
Qed.

Lemma discover_scan_first_page_witness :
  let before := [("Firmware/iPhone", PNone)] in
  let w := Sample.empty_world Sample.offline in
  (forall p, In p before -> PyStr.startswith "Keys:" (fst p) = false)
  /\ PyStr.contains " " "Sky" = false
  /\ PyStr.contains " " "19H370" = false
  /\ fst (discover_scan (H := Sample.lib)
            (before ++ [("Keys:Sky 19H370 (iPhone9,3)", PDict [])])%list
            false w)
     = Ok (Some "Sky", PStr "19H370", PNone).
Proof.
  intros before w.
  assert (N : forall p, In p before ->
                PyStr.startswith "Keys:" (fst p) = false).
  { intros p [<-|[]]. reflexivity. }
  assert (Cu : PyStr.contains " " "Sky" = false) by reflexivity.
  assert (Cb : PyStr.contains " " "19H370" = false) by reflexivity.
  split; [exact N|]. split; [exact Cu|]. split; [exact Cb|].
  exact (proj1 (discover_scan_first_page (H := Sample.lib) before []
                  "Sky" "19H370" "(iPhone9,3)" [] false w N Cu Cb)
           eq_refl).
Defined.

(** X16. An update line that [discover_update_line] returns is one word:
    it holds no space. *)
Theorem discovered_update_line_one_word `{PyLib} (device : string)
    (version build : option string) (verbose : bool) (w : world)
    (update : string) (discovered_build discovered_version : pyval) :
  fst (discover_update_line device version build verbose w)
  = Ok (Some update, discovered_build, discovered_version) ->
  PyStr.contains " " update = false.
Proof.
  rewrite discover_update_line_outcome.
  destruct (net w _) as [m|body]; [discriminate|].
  destruct (json_loads body) as [m|data]; [discriminate|].
  destruct (dict_get data "results" (PDict [])) as [results|e];
    [|discriminate].
  destruct (negb (truthy results)); [discriminate|].
  destruct (dict_items results) as [items|e]; [|discriminate].
  apply discover_scan_update_line.
Qed.

Lemma discovered_update_line_one_word_witness :
  let body := Sample.dumps
    (PDict [("results",
             PDict [("Keys:Sky 19H370 (iPhone9,3)", PDict [])])]) in
  let w := Sample.empty_world (Sample.answering body) in
  fst (discover_update_line (H := Sample.lib)
         "iPhone9,3" None (Some "19H370") false w)
  = Ok (Some "Sky", PStr "19H370", PNone)
  /\ PyStr.contains " " "Sky" = false.
Proof.
  intros body w.
  assert (R : fst (discover_update_line (H := Sample.lib)
                     "iPhone9,3" None (Some "19H370") false w)
              = Ok (Some "Sky", PStr "19H370", PNone))
    by (vm_compute; reflexivity).
  split; [exact R|].
  exact (discovered_update_line_one_word (H := Sample.lib)
           "iPhone9,3" None (Some "19H370") false w "Sky"
           (PStr "19H370") PNone R).
Defined.

(** ** More on the resolution *)

Section ResolutionMore.
Context `{PyLib}.








End ResolutionMore.







(** ** The bulk front end and the build of a cache hit *)

Section FrontEnd.
Context `{PyLib}.

Lemma has_any_cons (c : ascii) (cs : list ascii) (s : string) :
  has_any (c :: cs) s = false ->
  PyStr.contains (String c "") s = false /\ has_any cs s = false.
Proof. unfold has_any. cbn [existsb]. apply orb_false_iff. Qed.

(** Without a [j] in the name, only the extension is taken off. *)
Lemma replace_json_suffix (s : string) :
  PyStr.contains "j" s = false ->
  PyStr.replace ".json" "" (s ++ ".json") = s.
Proof.
  unfold PyStr.replace. induction s as [|x s IH]; intros C; [reflexivity|].
  apply contains_char_cons in C as [N C].
  cbn [append PyStr.replace_from].
  assert (E : PyStr.startswith ".json" (String x (s ++ ".json")) = false).
  { cbn [PyStr.startswith].
    destruct (Ascii.eqb "." x); [|reflexivity]. cbn [andb].
    destruct s as [|y s]; [reflexivity|].
    apply contains_char_cons in C as [N' _].
    cbn [append PyStr.startswith].
    apply Ascii.eqb_neq in N'. now rewrite N'. }
  rewrite E. f_equal. now apply IH.
Qed.

Lemma basename_acc_plain (cur s : string) :
  PyStr.contains "/" s = false -> basename_acc cur s = cur ++ s.
Proof.
  revert cur. induction s as [|x s IH]; intros cur C; simpl.
  - now rewrite app_empty_r.
  - apply contains_char_cons in C as [N C].
    assert (E : Ascii.eqb x "/" = false) by (apply Ascii.eqb_neq; congruence).
    rewrite E, IH by exact C. now rewrite app_assoc'.
Qed.

Lemma basename_in_cache (name : string) :
  PyStr.contains "/" name = false -> basename (".cache/" ++ name) = name.
Proof. intros C. unfold basename. simpl. now apply basename_acc_plain. Qed.

(** The first field of a cut, and the fields of a text with no separator. *)
Lemma split_first (c : ascii) (a r : string) :
  PyStr.contains (String c "") a = false ->
  PyStr.split c (a ++ String c r) = a :: PyStr.split c r.
Proof. intros C. unfold PyStr.split. now rewrite split_acc_field. Qed.

Lemma split_single (c : ascii) (a : string) :
  PyStr.contains (String c "") a = false -> PyStr.split c a = [a].
Proof. intros C. unfold PyStr.split. now rewrite split_acc_last. Qed.

End FrontEnd.

(** X20. A bulk entry [device,version,build] whose three fields hold no
    comma is read as that triple, an empty field being absent, and what
    follows a third comma is ignored.  In general the product is the text
    before the first comma of the entry. *)
Theorem parse_entry_fields (d v b rest : string) :
  PyStr.contains "," d = false ->
  PyStr.contains "," v = false ->
  PyStr.contains "," b = false ->
  parse_entry (d ++ "," ++ v ++ "," ++ b)
  = (d, if PyStr.nonempty v then Some v else None,
        if PyStr.nonempty b then Some b else None)
  /\ parse_entry (d ++ "," ++ v ++ "," ++ b ++ "," ++ rest)
     = parse_entry (d ++ "," ++ v ++ "," ++ b)
  /\ fst (fst (parse_entry (d ++ "," ++ rest))) = d.
Proof.
  intros Cd Cv Cb.
  assert (A : PyStr.split "," (d ++ "," ++ v ++ "," ++ b) = [d; v; b]).
  { change (d ++ "," ++ v ++ "," ++ b)
      with (d ++ String "," (v ++ String "," b)).
    now rewrite !split_first, split_single. }
  assert (B : PyStr.split "," (d ++ "," ++ v ++ "," ++ b ++ "," ++ rest)
              = d :: v :: b :: PyStr.split "," rest).
  { change (d ++ "," ++ v ++ "," ++ b ++ "," ++ rest)
      with (d ++ String "," (v ++ String "," (b ++ String "," rest))).
    now rewrite !split_first. }
  unfold parse_entry. rewrite A, B.
  change (d ++ "," ++ rest) with (d ++ String "," rest).
  rewrite split_first by exact Cd. auto.
Qed.

Lemma parse_entry_fields_witness :
  PyStr.contains "," "iPad7" = false
  /\ PyStr.contains "," "" = false
  /\ PyStr.contains "," "19H370" = false
  /\ parse_entry "iPad7,,19H370" = ("iPad7", None, Some "19H370").
Proof.
  assert (Cd : PyStr.contains "," "iPad7" = false) by reflexivity.
  assert (Cv : PyStr.contains "," "" = false) by reflexivity.
  assert (Cb : PyStr.contains "," "19H370" = false) by reflexivity.
  split; [exact Cd|]. split; [exact Cv|]. split; [exact Cb|].
  exact (proj1 (parse_entry_fields "iPad7" "" "19H370" "" Cd Cv Cb)).
Defined.

(** X21. A bulk entry that holds no comma is skipped: its diagnostic is
    printed, nothing is requested or written, and the loop goes on with
    the next entry. *)
Theorem bulk_entry_without_comma_skipped `{PyLib} (entry : string)
    (rest : list string) (debug : bool) (w : world) :
  PyStr.contains "," entry = false ->
  bulk_loop (entry :: rest) debug w
  = bulk_loop rest debug
      (printed ("[-] Entry '" ++ entry
                ++ "' must include at least version or build") w).
Proof.
  intros C. cbn [bulk_loop]. unfold parse_entry.
  rewrite split_single by exact C. reflexivity.
Qed.

Lemma bulk_entry_without_comma_skipped_witness :
  let w := Sample.empty_world Sample.offline in
  PyStr.contains "," "iPad7" = false
  /\ bulk_loop (H := Sample.lib) ["iPad7"] true w
     = (Ok tt,
        printed "[-] Entry 'iPad7' must include at least version or build" w).
Proof.
  intros w.
  assert (C : PyStr.contains "," "iPad7" = false) by reflexivity.
  split; [exact C|].
  exact (bulk_entry_without_comma_skipped (H := Sample.lib)
           "iPad7" [] true w C).
Defined.

(** X22. The bulk loop does not guard a resolution: when
    [fetch_firmware_keys] raises for an entry, the loop raises the same
    exception there and the entries after it are not looked at; when it
    returns, with keys or without, the loop goes on with the next entry. *)
Theorem bulk_loop_stops_on_exception `{PyLib} (entry : string)
    (rest : list string) (debug : bool) (w : world)
    (product : string) (version build : option string) :
  parse_entry entry = (product, version, build) ->
  given version || given build = true ->
  (forall e,
     fst (fetch_firmware_keys product version build debug w) = Raise e ->
     bulk_loop (entry :: rest) debug w
     = (Raise e, snd (fetch_firmware_keys product version build debug w)))
  /\ (forall r,
        fst (fetch_firmware_keys product version build debug w) = Ok r ->
        bulk_loop (entry :: rest) debug w
        = bulk_loop rest debug
            (snd (fetch_firmware_keys product version build debug w))).
Proof.
  intros P G. cbn [bulk_loop]. rewrite P.
  assert (S : negb (given version) && negb (given build) = false)
    by (destruct (given version), (given build); simpl in *; congruence).
  rewrite S. split.
  - intros e R. rewrite bind_run.
    destruct (fetch_firmware_keys product version build debug w)
      as [[r|e'] w1]; simpl in R; [discriminate|]. now injection R as ->.
  - intros r R. rewrite bind_run.
    destruct (fetch_firmware_keys product version build debug w)
      as [[r'|e] w1]; simpl in R; [reflexivity | discriminate].
Qed.

Lemma bulk_loop_stops_on_exception_witness :
  let w := Sample.empty_world (Sample.answering "[]") in
  parse_entry "iPad7,15.0,19H370" = ("iPad7", Some "15.0", Some "19H370")
  /\ given (Some "15.0") || given (Some "19H370") = true
  /\ fst (fetch_firmware_keys (H := Sample.lib)
            "iPad7" (Some "15.0") (Some "19H370") false w)
     = Raise AttributeError
  /\ fst (bulk_loop (H := Sample.lib)
            ["iPad7,15.0,19H370"; "iPad8,15.0,19H370"] false w)
     = Raise AttributeError.
Proof.
  intros w.
  assert (P : parse_entry "iPad7,15.0,19H370"
              = ("iPad7", Some "15.0", Some "19H370")) by reflexivity.
  assert (G : given (Some "15.0") || given (Some "19H370") = true)
    by reflexivity.
  assert (R : fst (fetch_firmware_keys (H := Sample.lib)
                     "iPad7" (Some "15.0") (Some "19H370") false w)
              = Raise AttributeError) by (vm_compute; reflexivity).
  split; [exact P|]. split; [exact G|]. split; [exact R|].
  rewrite (proj1 (bulk_loop_stops_on_exception (H := Sample.lib)
                    "iPad7,15.0,19H370" ["iPad8,15.0,19H370"] false w
                    "iPad7" (Some "15.0") (Some "19H370") P G)
             AttributeError R).
  reflexivity.
Defined.

(** X23. The build of a cache hit, when none was supplied, is read back
    from the name of the cache file.  For identifiers that hold no [/] and
    no [j], and a device and build with no [_]: from the file of a full
    triple it is the build; from the file of a version alone it is the
    version, which then names the output file. *)
Theorem build_read_from_cache_file `{PyLib} (device b v : string) :
  has_any ["_"; "/"; "j"]%char device = false ->
  has_any ["_"; "/"; "j"]%char b = false ->
  has_any ["_"; "/"; "j"]%char v = false ->
  b <> "" -> v <> "" ->
  build_of_cache_hit None (Some (cache_path device (PStr b) (PStr v)))
  = PStr b
  /\ build_of_cache_hit None (Some (cache_path device (PStr b) PNone))
     = PStr b
  /\ build_of_cache_hit None (Some (cache_path device PNone (PStr v)))
     = PStr v.
Proof.
  intros Hd Hb Hv Nb Nv.
  apply has_any_cons in Hd as (Ud & Hd). apply has_any_cons in Hd as (Sd & Hd).
  apply has_any_cons in Hd as (Jd & _).
  apply has_any_cons in Hb as (Ub & Hb). apply has_any_cons in Hb as (Sb & Hb).
  apply has_any_cons in Hb as (Jb & _).
  apply has_any_cons in Hv as (Uv & Hv). apply has_any_cons in Hv as (Sv & Hv).
  apply has_any_cons in Hv as (Jv & _).
  assert (G : forall name parts,
            PyStr.contains "/" name = false ->
            PyStr.contains "j" name = false ->
            PyStr.split "_" name = device :: parts ->
            parts <> [] ->
            build_of_cache_hit None
              (Some (path_join CACHE_DIR (name ++ ".json")))
            = PStr (hd "" parts)).
  { intros name parts Sn Jn Pn Nn.
    assert (Z : PyStr.startswith "/" (name ++ ".json") = false).
    { destruct name as [|x name]; [reflexivity|].
      apply contains_char_cons in Sn as [N _].
      cbn [append PyStr.startswith]. apply Ascii.eqb_neq in N.
      now rewrite N. }
    unfold build_of_cache_hit.
    change (negb (given None)) with true.
    rewrite path_join_cache, Z.
    assert (Y : given (Some (".cache/" ++ name ++ ".json")) = true)
      by reflexivity.
    rewrite Y. cbn [andb].
    rewrite basename_in_cache
      by (rewrite contains_char_app, Sn; reflexivity).
    rewrite replace_json_suffix by exact Jn. rewrite Pn.
    destruct parts as [|p parts]; [congruence | reflexivity]. }
  rewrite cache_path_both, cache_path_build_only, cache_path_version_only
    by assumption.
  split; [|split].
  - replace (device ++ "_" ++ b ++ "_" ++ v ++ ".json")
      with ((device ++ "_" ++ b ++ "_" ++ v) ++ ".json")
      by now rewrite !app_assoc'.
    rewrite (G _ (b :: PyStr.split "_" v)); try reflexivity; try discriminate.
    + rewrite !contains_char_app, Sd, Sb, Sv. reflexivity.
    + rewrite !contains_char_app, Jd, Jb, Jv. reflexivity.
    + change (device ++ "_" ++ b ++ "_" ++ v)
        with (device ++ String "_" (b ++ String "_" v)).
      now rewrite !split_first.
  - replace (device ++ "_" ++ b ++ ".json")
      with ((device ++ "_" ++ b) ++ ".json") by now rewrite !app_assoc'.
    rewrite (G _ [b]); try reflexivity; try discriminate.
    + rewrite !contains_char_app, Sd, Sb. reflexivity.
    + rewrite !contains_char_app, Jd, Jb. reflexivity.
    + change (device ++ "_" ++ b) with (device ++ String "_" b).
      now rewrite split_first, split_single.
  - replace (device ++ "_" ++ v ++ ".json")
      with ((device ++ "_" ++ v) ++ ".json") by now rewrite !app_assoc'.
    rewrite (G _ [v]); try reflexivity; try discriminate.
    + rewrite !contains_char_app, Sd, Sv. reflexivity.
    + rewrite !contains_char_app, Jd, Jv. reflexivity.
    + change (device ++ "_" ++ v) with (device ++ String "_" v).
      now rewrite split_first, split_single.
Qed.

Lemma build_read_from_cache_file_witness :
  has_any ["_"; "/"; "j"]%char "iPhone9,3" = false
  /\ has_any ["_"; "/"; "j"]%char "19H370" = false
  /\ has_any ["_"; "/"; "j"]%char "15.0.1" = false
  /\ build_of_cache_hit None
       (Some (cache_path (H := Sample.lib) "iPhone9,3" PNone (PStr "15.0.1")))
     = PStr "15.0.1".
Proof.
  assert (Hd : has_any ["_"; "/"; "j"]%char "iPhone9,3" = false)
    by reflexivity.
  assert (Hb : has_any ["_"; "/"; "j"]%char "19H370" = false) by reflexivity.
  assert (Hv : has_any ["_"; "/"; "j"]%char "15.0.1" = false) by reflexivity.
  assert (Nb : "19H370" <> "") by discriminate.
  assert (Nv : "15.0.1" <> "") by discriminate.
  split; [exact Hd|]. split; [exact Hb|]. split; [exact Hv|].
  exact (proj2 (proj2 (build_read_from_cache_file (H := Sample.lib)
                         "iPhone9,3" "19H370" "15.0.1" Hd Hb Hv Nb Nv))).
Defined.
